(** * macro-tracker: the authenticated fetch of the React pages

    [fetchWithAuth] is defined three times, with the same body, in
    [EntriesPage.jsx], [SummariesPage.jsx] and the dashboard page.  It reads
    the access token from [localStorage], issues the request with a bearer
    header, and on a 401 exchanges the refresh token for a new access token
    and re-issues the request once.

    The function is asynchronous and talks to three collaborators: the
    browser's [localStorage], the network ([fetch]) and the router
    ([navigate]).  It is embedded as a computation in a state-and-exception
    monad over a [World] that holds the storage and the chronological trace
    of the effects of the call; the network is an oracle that answers each
    request from the list of requests issued so far.  A rejected promise is
    the [Thrown] outcome.

    Scope of the model: one call runs alone (nothing else writes the storage
    between its awaits), storage operations and [navigate] do not throw, and
    the option object carries [method], [headers] and [body]. *)

From stdpp Require Import gmap strings list fin_maps.
From stdpp Require Import pretty.

Set Warnings "-register-all".
Open Scope string_scope.

(** ** JavaScript values met by the client *)

(** A value produced by [JSON.parse].  A number is identified by the text
    that [String(n)] gives for it, which is all the client observes of it.
    [JObj] lists the members in source order. *)
Inductive JsValue : Type :=
| JNull
| JBool (b : bool)
| JNum (repr : string)
| JStr (s : string)
| JArr (items : list JsValue)
| JObj (members : list (string * JsValue)).

(** What a rejected promise carries. *)
Inductive JsError : Type :=
| NetworkError   (* fetch: TypeError, failed to fetch *)
| SyntaxError    (* Response.json() on a body that is not JSON *)
| TypeError.     (* property read on null *)

Inductive Outcome (A : Type) : Type :=
| Returned (a : A)
| Thrown (e : JsError).
Arguments Returned {A} a.
Arguments Thrown {A} e.

(** In a parsed object a later member with the same key replaces an earlier
    one. *)
Fixpoint member (key : string) (members : list (string * JsValue)) : option JsValue :=
  match members with
  | [] => None
  | (k, v) :: rest =>
      match member key rest with
      | Some v' => Some v'
      | None => if String.eqb k key then Some v else None
      end
  end.

(** The string conversion of a value, [None] where it throws a TypeError.
    An array is joined with commas, its null elements as the empty string.
    An object gives ["[object Object]"], unless it has a member named
    [toString]: the member hides [Object.prototype.toString] behind a value
    that cannot be called, and the conversion throws; so does that of an
    array that holds such an object. *)
Fixpoint to_string (v : JsValue) : option string :=
  match v with
  | JNull => Some "null"
  | JBool true => Some "true"
  | JBool false => Some "false"
  | JNum repr => Some repr
  | JStr s => Some s
  | JArr items =>
      (fix join (xs : list JsValue) : option string :=
         match xs with
         | [] => Some ""
         | [x] => match x with JNull => Some "" | _ => to_string x end
         | x :: rest =>
             match (match x with JNull => Some "" | _ => to_string x end), join rest with
             | Some first, Some others => Some (first +:+ "," +:+ others)
             | _, _ => None
             end
         end) items
  | JObj members =>
      match member "toString" members with
      | Some _ => None
      | None => Some "[object Object]"
      end
  end.

(** [String(x)] for a property read, as [setItem], a template literal and
    [new Error] apply it: [None] is JavaScript's [undefined]. *)
Definition String_of (v : option JsValue) : Outcome string :=
  match v with
  | None => Returned "undefined"
  | Some x =>
      match to_string x with
      | Some s => Returned s
      | None => Thrown TypeError
      end
  end.

(** [`${token}`] for the result of [localStorage.getItem], which is a string
    or [null]. *)
Definition template_nullable (v : option string) : string :=
  match v with
  | Some s => s
  | None => "null"
  end.

(** The result of [localStorage.getItem] as a value. *)
Definition stored_value (v : option string) : JsValue :=
  match v with
  | Some s => JStr s
  | None => JNull
  end.

(** [!x] for a string or null: null and the empty string are falsy. *)
Definition truthy (v : option string) : bool :=
  match v with
  | Some s => negb (String.eqb s "")
  | None => false
  end.

(** [data.access]: reading a property of null throws; a primitive or an array
    has no property of that name; an object gives its member or undefined. *)
Definition get_property (data : JsValue) (key : string) : Outcome (option JsValue) :=
  match data with
  | JNull => Thrown TypeError
  | JObj members => Returned (member key members)
  | _ => Returned None
  end.

(** ** Requests and responses *)

(** The argument of [JSON.stringify] is kept as a value: [JsonText v] is the
    string [JSON.stringify(v)]. *)
Inductive BodyInit : Type :=
| TextBody (s : string)
| JsonText (v : JsValue).

(** The option object of [fetch].  [headers] is a plain object, so that its
    keys are case-sensitive property names. *)
Record RequestInit : Type := {
  method : option string;
  headers : option (gmap string string);
  body : option BodyInit;
}.

Record Request : Type := {
  req_url : string;
  req_init : RequestInit;
}.

(** The value a request carries for a header name. *)
Definition header (name : string) (req : Request) : option string :=
  match headers (req_init req) with
  | Some h => h !! name
  | None => None
  end.

(** What a caller can give as [options.headers]: a plain object, a
    [Headers] instance, or an array of pairs of a name and a value. *)
Inductive HeadersInit : Type :=
| HeadersObject (object : gmap string string)
| HeadersInstance (entries : list (string * string))
| HeadersPairs (pairs : list (string * string)).

(** The [options] argument of [fetchWithAuth]. *)
Module Options.
Record t : Type := {
  method : option string;
  headers : option HeadersInit;
  body : option BodyInit;
}.
End Options.

(** [options = {}]. *)
Definition no_options : Options.t :=
  {| Options.method := None; Options.headers := None; Options.body := None |}.

(** [...options.headers] in an object literal copies the own enumerable
    properties: the entries of a plain object; nothing of a [Headers]
    instance, which keeps its entries out of reach of the spread; the
    elements of an array under their indices, where the element, a pair, is
    held as the text [fetch] makes of it, name and value joined by a
    comma. *)
Definition spread_headers (init : option HeadersInit) : gmap string string :=
  match init with
  | None => ∅
  | Some (HeadersObject object) => object
  | Some (HeadersInstance _) => ∅
  | Some (HeadersPairs pairs) =>
      list_to_map (imap (fun i pair => (pretty i, pair.1 +:+ "," +:+ pair.2)) pairs)
  end.

(** The headers the caller supplied, whatever their form. *)
Definition supplied_headers (options : Options.t) : list (string * string) :=
  match Options.headers options with
  | None => []
  | Some (HeadersObject object) => map_to_list object
  | Some (HeadersInstance entries) => entries
  | Some (HeadersPairs pairs) => pairs
  end.

(** A response: its status and what [json()] yields, [None] when the body is
    not JSON. *)
Record Response : Type := {
  status : nat;
  json_body : option JsValue;
}.

(** [res.ok] *)
Definition ok (res : Response) : bool :=
  ((200 <=? status res) && (status res <=? 299))%nat.

Inductive FetchOutcome : Type :=
| Resolve (res : Response)
| Reject.

(** ** The world of one call *)

Inductive Event : Type :=
| EvSet (key value : string)
| EvRemove (key : string)
| EvFetch (req : Request)
| EvNavigate (path : string).

Record World : Type := {
  storage : gmap string string;
  trace : list Event;
}.

Definition start (st : gmap string string) : World :=
  {| storage := st; trace := [] |}.

Definition emit (e : Event) (w : World) : World :=
  {| storage := storage w; trace := trace w ++ [e] |}.

Fixpoint requests (tr : list Event) : list Request :=
  match tr with
  | [] => []
  | EvFetch req :: rest => req :: requests rest
  | _ :: rest => requests rest
  end.

Fixpoint navigations (tr : list Event) : list string :=
  match tr with
  | [] => []
  | EvNavigate path :: rest => path :: navigations rest
  | _ :: rest => navigations rest
  end.

Definition is_write (e : Event) : bool :=
  match e with
  | EvSet _ _ | EvRemove _ => true
  | _ => false
  end.

(** The storage events of a trace, sets and removals. *)
Definition writes (tr : list Event) : list Event := List.filter is_write tr.

(** ** The monad of asynchronous code *)

Definition Async (A : Type) : Type := World -> Outcome A * World.

Definition ret {A} (a : A) : Async A := fun w => (Returned a, w).

Definition throw {A} (e : JsError) : Async A := fun w => (Thrown e, w).

Definition bind {A B} (m : Async A) (k : A -> Async B) : Async B :=
  fun w =>
    match m w with
    | (Returned a, w') => k a w'
    | (Thrown e, w') => (Thrown e, w')
    end.

Notation "'let*' x ':=' m 'in' k" := (bind m (fun x => k))
  (at level 10, x name, m at level 100, k at level 200).
Notation "m ';;' k" := (bind m (fun _ => k))
  (at level 100, k at level 200, right associativity).

Definition lift {A} (o : Outcome A) : Async A := fun w => (o, w).

(** ** The collaborators *)

Definition getItem (key : string) : Async (option string) :=
  fun w => (Returned (storage w !! key), w).

Definition setItem (key value : string) : Async unit :=
  fun w =>
    (Returned tt,
     {| storage := <[key := value]> (storage w);
        trace := trace w ++ [EvSet key value] |}).

Definition removeItem (key : string) : Async unit :=
  fun w =>
    (Returned tt,
     {| storage := delete key (storage w);
        trace := trace w ++ [EvRemove key] |}).

Definition navigate (path : string) : Async unit :=
  fun w => (Returned tt, emit (EvNavigate path) w).

(** [await refreshRes.json()] *)
Definition json (res : Response) : Async JsValue :=
  match json_body res with
  | Some v => ret v
  | None => throw SyntaxError
  end.

Section Client.

(** The remote side: the answer to the last request of the list, given the
    requests before it. *)
Variable server : list Request -> FetchOutcome.

(** [await fetch(url, init)] *)
Definition fetch (url : string) (init : RequestInit) : Async Response :=
  fun w =>
    let w' := emit (EvFetch {| req_url := url; req_init := init |}) w in
    match server (requests (trace w')) with
    | Resolve res => (Returned res, w')
    | Reject => (Thrown NetworkError, w')
    end.

Definition REFRESH_URL : string := "http://127.0.0.1:8000/api/token/refresh/".

(** [{ "Content-Type": "application/json", ...options.headers,
       Authorization: bearer }]: the spread overrides the default, the
    bearer overrides the spread. *)
Definition auth_headers (options : Options.t) (bearer : string)
  : gmap string string :=
  <["Authorization" := bearer]>
    (spread_headers (Options.headers options)
     ∪ {["Content-Type" := "application/json"]}).

(** [{ ...options, headers: {...} }] *)
Definition auth_init (options : Options.t) (bearer : string) : RequestInit :=
  {| method := Options.method options;
     headers := Some (auth_headers options bearer);
     body := Options.body options |}.

(** [{ method: "POST", headers: {...}, body: JSON.stringify({ refresh }) }]
    for the value read from the storage. *)
Definition refresh_init (refresh : option string) : RequestInit :=
  {| method := Some "POST";
     headers := Some {["Content-Type" := "application/json"]};
     body := Some (JsonText (JObj [("refresh", stored_value refresh)])) |}.

(** [fetchWithAuth] of [EntriesPage.jsx], [SummariesPage.jsx] and the
    dashboard.  [data.access] is read and made a string twice in the source,
    by [setItem] and by the template literal of the retry; the second
    conversion repeats the first, which has not thrown. *)
Definition fetchWithAuth (url : string) (options : Options.t) : Async Response :=
  let* token := getItem "access" in
  let* res := fetch url (auth_init options ("Bearer " +:+ template_nullable token)) in
  if (status res =? 401)%nat then
    let* refresh := getItem "refresh" in
    if negb (truthy refresh) then
      navigate "/";;
      ret res
    else
      let* refreshRes := fetch REFRESH_URL (refresh_init refresh) in
      if ok refreshRes then
        let* data := json refreshRes in
        let* access := lift (get_property data "access") in
        let* token := lift (String_of access) in
        setItem "access" token;;
        let* res := fetch url (auth_init options ("Bearer " +:+ token)) in
        ret res
      else
        navigate "/";;
        ret res
  else
    ret res.

(** The dashboard's [confirmLogout]. *)
Definition confirmLogout : Async unit :=
  removeItem "access";;
  removeItem "refresh";;
  navigate "/".

End Client.

(** The request interceptor of the axios instance ([api/axios.jsx]), on the
    headers of the request configuration: the header is set only for a
    truthy token. *)
Definition interceptor (config_headers : gmap string string) : Async (gmap string string) :=
  let* token := getItem "access" in
  if truthy token then
    ret (<["Authorization" := "Bearer " +:+ template_nullable token]> config_headers)
  else
    ret config_headers.

(** ** The requests of a call *)

(** The first request, built from the token in the storage. *)
Definition initial_request (st : gmap string string) (url : string)
    (options : Options.t) : Request :=
  {| req_url := url;
     req_init := auth_init options ("Bearer " +:+ template_nullable (st !! "access")) |}.

(** The call to the refresh endpoint. *)
Definition refresh_request (st : gmap string string) : Request :=
  {| req_url := REFRESH_URL; req_init := refresh_init (st !! "refresh") |}.

(** The second issue of the caller's request, with the token of the refresh
    response. *)
Definition retry_request (url : string) (options : Options.t) (access : string)
    : Request :=
  {| req_url := url; req_init := auth_init options ("Bearer " +:+ access) |}.

(** The storage holds a credential under [key] when the source's test
    [!localStorage.getItem(key)] fails. *)
Definition holds_credential (st : gmap string string) (key : string) : Prop :=
  truthy (st !! key) = true.

(** One call on a storage, with an empty trace. *)
Definition call (server : list Request -> FetchOutcome) (st : gmap string string)
    (url : string) (options : Options.t) : Outcome Response * World :=
  fetchWithAuth server url options (start st).

(** ** The branches of a call

    [Branch server st url options o w]: the call ends with outcome [o] in
    world [w].  One constructor per path through the body of
    [fetchWithAuth]; [call_branch] shows that every call takes one of
    them. *)

Section Branches.

Variable server : list Request -> FetchOutcome.
Variable st : gmap string string.
Variable url : string.
Variable options : Options.t.

Let r0 := initial_request st url options.
Let rr := refresh_request st.

Inductive Branch : Outcome Response -> World -> Prop :=
| FirstRejected :
    server [r0] = Reject ->
    Branch (Thrown NetworkError) {| storage := st; trace := [EvFetch r0] |}
| PassThrough res :
    server [r0] = Resolve res ->
    status res <> 401 ->
    Branch (Returned res) {| storage := st; trace := [EvFetch r0] |}
| NoCredential res :
    server [r0] = Resolve res ->
    status res = 401 ->
    truthy (st !! "refresh") = false ->
    Branch (Returned res)
      {| storage := st; trace := [EvFetch r0; EvNavigate "/"] |}
| RefreshRejected res :
    server [r0] = Resolve res ->
    status res = 401 ->
    truthy (st !! "refresh") = true ->
    server [r0; rr] = Reject ->
    Branch (Thrown NetworkError)
      {| storage := st; trace := [EvFetch r0; EvFetch rr] |}
| RefreshRefused res refreshRes :
    server [r0] = Resolve res ->
    status res = 401 ->
    truthy (st !! "refresh") = true ->
    server [r0; rr] = Resolve refreshRes ->
    ok refreshRes = false ->
    Branch (Returned res)
      {| storage := st; trace := [EvFetch r0; EvFetch rr; EvNavigate "/"] |}
| RefreshUnreadable res refreshRes e :
    server [r0] = Resolve res ->
    status res = 401 ->
    truthy (st !! "refresh") = true ->
    server [r0; rr] = Resolve refreshRes ->
    ok refreshRes = true ->
    (json_body refreshRes = None /\ e = SyntaxError \/
     json_body refreshRes = Some JNull /\ e = TypeError) ->
    Branch (Thrown e) {| storage := st; trace := [EvFetch r0; EvFetch rr] |}
| TokenRefused res refreshRes data access e :
    server [r0] = Resolve res ->
    status res = 401 ->
    truthy (st !! "refresh") = true ->
    server [r0; rr] = Resolve refreshRes ->
    ok refreshRes = true ->
    json_body refreshRes = Some data ->
    get_property data "access" = Returned access ->
    String_of access = Thrown e ->
    Branch (Thrown e) {| storage := st; trace := [EvFetch r0; EvFetch rr] |}
| Retried res refreshRes data access token o :
    server [r0] = Resolve res ->
    status res = 401 ->
    truthy (st !! "refresh") = true ->
    server [r0; rr] = Resolve refreshRes ->
    ok refreshRes = true ->
    json_body refreshRes = Some data ->
    get_property data "access" = Returned access ->
    String_of access = Returned token ->
    let r2 := retry_request url options token in
    match server [r0; rr; r2] with
    | Resolve res2 => o = Returned res2
    | Reject => o = Thrown NetworkError
    end ->
    Branch o
      {| storage := <["access" := token]> st;
         trace := [EvFetch r0; EvFetch rr; EvSet "access" token; EvFetch r2] |}.

End Branches.

(** The reading of C7's [no caller-supplied header is silently dropped]:
    every header of [options.headers] is carried by the request with the
    caller's value. *)
Definition no_caller_header_dropped (options : Options.t) (req : Request) : Prop :=
  forall name value,
    (name, value) ∈ supplied_headers options ->
    header name req = Some value.

(** ** Scenarios

    Storages, responses and servers for the examples below. *)

(** A server that answers the n-th request with the n-th entry of a script,
    whatever the request. *)
Definition scripted (answers : list FetchOutcome) : list Request -> FetchOutcome :=
  fun reqs => default Reject (answers !! (length reqs - 1)).

Definition unauthorized : Response :=
  {| status := 401;
     json_body := Some (JObj [("detail", JStr "Given token not valid for any token type")]) |}.

Definition entry : Response :=
  {| status := 200; json_body := Some (JObj [("id", JNum "1")]) |}.

Definition refreshed (access : string) : Response :=
  {| status := 200; json_body := Some (JObj [("access", JStr access)]) |}.

(** A server that looks at the request: the refresh endpoint exchanges
    [valid_refresh] for [new_access], and every other URL answers 200 to
    [Bearer new_access] and 401 to anything else. *)
Definition api_server (valid_refresh new_access : string)
    : list Request -> FetchOutcome :=
  fun reqs =>
    match last reqs with
    | None => Reject
    | Some req =>
        if String.eqb (req_url req) REFRESH_URL then
          match body (req_init req) with
          | Some (JsonText (JObj [("refresh", JStr r)])) =>
              if String.eqb r valid_refresh
              then Resolve (refreshed new_access)
              else Resolve unauthorized
          | _ => Resolve {| status := 400; json_body := None |}
          end
        else
          match header "Authorization" req with
          | Some bearer =>
              if String.eqb bearer ("Bearer " +:+ new_access)
              then Resolve entry
              else Resolve unauthorized
          | None => Resolve unauthorized
          end
    end.

Definition entries_url : string := "http://127.0.0.1:8000/api/entries/today/".

(** Storage after a login, with an expired access token. *)
Definition logged_in : gmap string string :=
  {["access" := "old"; "refresh" := "r1"]}.

(** Storage that lost its refresh token. *)
Definition access_only : gmap string string := {["access" := "old"]}.

(** Options whose headers carry an [Authorization] of the caller's own. *)
Definition basic_auth_options : Options.t :=
  {| Options.method := Some "GET";
     Options.headers :=
       Some (HeadersObject {["Authorization" := "Basic dXNlcjpwdw=="; "X-Trace" := "7"]});
     Options.body := None |}.

(** Options whose headers are a [Headers] instance. *)
Definition headers_instance_options : Options.t :=
  {| Options.method := Some "GET";
     Options.headers := Some (HeadersInstance [("x-trace", "7")]);
     Options.body := None |}.

(** ** Event handlers of the pages

    The handlers of the pages run in [try]/[catch] blocks, throw [Error]
    objects of their own and call the setters of the component state.  They
    are embedded in a second monad, [Task], over a [Page]: the world of the
    client together with the chronological list of the state updates of the
    component.  [await] runs a computation of the client inside a task. *)

(** What a [catch] clause of a page can receive. *)
Inductive Exception : Type :=
| Native (e : JsError)                  (* thrown by the platform *)
| ErrorObject (message : string)        (* [new Error(message)] *)
| AxiosError (res : option Response).   (* axios: status outside 2xx, or no response *)

(** The calls a handler makes on its component: the setters of [useState]
    and [setTimeout(() => navigate(path), ms)]. *)
Inductive Update : Type :=
| SetError (value : JsValue)
| SetSuccess (text : string)
| SetSummaries (data : JsValue)
| SetFoodName (text : string)
| SetTimeout (ms : nat) (path : string).

Record Page : Type := {
  world : World;
  updates : list Update;
}.

Inductive Result (A : Type) : Type :=
| Done (a : A)
| Raised (x : Exception).
Arguments Done {A} a.
Arguments Raised {A} x.

Definition Task (A : Type) : Type := Page -> Result A * Page.

#[global] Instance Task_ret : MRet Task := fun A a p => (Done a, p).

#[global] Instance Task_bind : MBind Task :=
  fun A B k m p =>
    match m p with
    | (Done a, p') => k a p'
    | (Raised x, p') => (Raised x, p')
    end.

(** [throw x] *)
Definition raise {A} (x : Exception) : Task A := fun p => (Raised x, p).

(** [try { m } catch (err) { handler }] *)
Definition try_catch {A} (m : Task A) (handler : Exception -> Task A) : Task A :=
  fun p =>
    match m p with
    | (Done a, p') => (Done a, p')
    | (Raised x, p') => handler x p'
    end.

(** [await m] for a computation of the client: a rejection is thrown into
    the task. *)
Definition await {A} (m : Async A) : Task A :=
  fun p =>
    match m (world p) with
    | (Returned a, w) => (Done a, {| world := w; updates := updates p |})
    | (Thrown e, w) => (Raised (Native e), {| world := w; updates := updates p |})
    end.

Definition update (u : Update) : Task unit :=
  fun p => (Done tt, {| world := world p; updates := updates p ++ [u] |}).

(** A page that has made no call yet, on a storage. *)
Definition open_page (st : gmap string string) : Page :=
  {| world := start st; updates := [] |}.

(** The truth value of a property read, for [||] and [? :]: [undefined],
    [null], [false], zero and the empty string are falsy.  [JSON.parse]
    yields no NaN, and both zeros print as ["0"]. *)
Definition truthy_value (v : option JsValue) : bool :=
  match v with
  | None | Some JNull => false
  | Some (JBool b) => b
  | Some (JNum repr) => negb (String.eqb repr "0")
  | Some (JStr s) => negb (String.eqb s "")
  | Some (JArr _) | Some (JObj _) => true
  end.

(** [v || fallback] *)
Definition or_else (v : option JsValue) (fallback : JsValue) : JsValue :=
  match v with
  | Some x => if truthy_value v then x else fallback
  | None => fallback
  end.

(** [err.message].  The text of a platform error is the browser's, given by
    [native_message]; the texts of axios are those of its [settle] and of
    its XHR adapter. *)
Definition message (native_message : JsError -> string) (err : Exception) : string :=
  match err with
  | Native e => native_message e
  | ErrorObject text => text
  | AxiosError (Some res) => "Request failed with status code " +:+ pretty (status res)
  | AxiosError None => "Network Error"
  end.

Module Register.
Section Register.

Variable server : list Request -> FetchOutcome.

Definition REGISTER_URL : string := "http://127.0.0.1:8000/api/register_user/".

Definition register_init (username password : string) : RequestInit :=
  {| method := Some "POST";
     headers := Some {["Content-Type" := "application/json"]};
     body := Some (JsonText (JObj [("username", JStr username);
                                   ("password", JStr password)])) |}.

Definition register_request (username password : string) : Request :=
  {| req_url := REGISTER_URL; req_init := register_init username password |}.

(** [handleSubmit] of [Register.jsx], on the three fields of the form.
    [e.preventDefault()] touches neither the storage nor the component. *)
Definition handleSubmit (username password confirmPassword : string) : Task unit :=
  _ ← update (SetError (JStr ""));
  _ ← update (SetSuccess "");
  if negb (String.eqb password confirmPassword) then
    update (SetError (JStr "Passwords do not match."))
  else
    try_catch
      (res ← await (fetch server REGISTER_URL (register_init username password));
       if ok res then
         _ ← update (SetSuccess "Registration successful! Redirecting to login...");
         update (SetTimeout 1500 "/")
       else
         data ← await (json res);
         error ← await (lift (get_property data "error"));
         update (SetError (or_else error (JStr "Registration failed."))))
      (fun err => update (SetError (JStr "Something went wrong. Please try again."))).

End Register.
End Register.

Module Login.
Section Login.

Variable server : list Request -> FetchOutcome.

(** The headers axios itself puts on the request. *)
Variable axios_headers : gmap string string.

(** [baseURL] of the instance of [api/axios.jsx]. *)
Definition baseURL : string := "/api/".

Definition post_request (config_headers : gmap string string) (path : string)
    (data : JsValue) : Request :=
  {| req_url := baseURL +:+ path;
     req_init := {| method := Some "POST";
                    headers := Some config_headers;
                    body := Some (JsonText data) |} |}.

(** The transport of axios: it rejects when there is no response and when
    the status is outside 2xx. *)
Definition send (req : Request) : Task Response :=
  fun p =>
    match fetch server (req_url req) (req_init req) (world p) with
    | (Returned res, w) =>
        (if ok res then Done res else Raised (AxiosError (Some res)),
         {| world := w; updates := updates p |})
    | (Thrown _, w) =>
        (Raised (AxiosError None), {| world := w; updates := updates p |})
    end.

(** [api.post(path, data)]: the request passes the interceptor. *)
Definition post (path : string) (data : JsValue) : Task Response :=
  config_headers ← await (interceptor axios_headers);
  send (post_request config_headers path data).

(** [res.data.key]: axios parses a JSON body; a body that is not JSON is
    kept as a string, which has no property of that name. *)
Definition data_property (res : Response) (key : string) : Outcome (option JsValue) :=
  match json_body res with
  | Some data => get_property data key
  | None => Returned None
  end.

(** The request of a login from a storage: the interceptor has put the
    stored access token on it, if there is one. *)
Definition login_request (st : gmap string string) (username password : string)
    : Request :=
  post_request
    (if truthy (st !! "access")
     then <["Authorization" := "Bearer " +:+ template_nullable (st !! "access")]> axios_headers
     else axios_headers)
    "token/"
    (JObj [("username", JStr username); ("password", JStr password)]).

(** [handleSubmit] of the login page. *)
Definition handleSubmit (username password : string) : Task unit :=
  try_catch
    (res ← post "token/" (JObj [("username", JStr username);
                                ("password", JStr password)]);
     access ← await (lift (data_property res "access"));
     access ← await (lift (String_of access));
     _ ← await (setItem "access" access);
     refresh ← await (lift (data_property res "refresh"));
     refresh ← await (lift (String_of refresh));
     _ ← await (setItem "refresh" refresh);
     await (navigate "/dashboard"))
    (fun err => update (SetError (JStr "Invalid username or password"))).

End Login.
End Login.

Module SummariesPage.
Section SummariesPage.

Variable server : list Request -> FetchOutcome.
Variable native_message : JsError -> string.

Definition SUMMARIES_URL : string :=
  "http://127.0.0.1:8000/api/entries/daily-summaries/".

(** [fetchSummaries] of the effect of [SummariesPage.jsx]. *)
Definition fetchSummaries : Task unit :=
  try_catch
    (res ← await (fetchWithAuth server SUMMARIES_URL no_options);
     if negb (ok res) then raise (ErrorObject "Failed to fetch summaries")
     else
       data ← await (json res);
       update (SetSummaries data))
    (fun err => update (SetError (JStr (message native_message err)))).

End SummariesPage.
End SummariesPage.

Module Dashboard.
Section Dashboard.

Variable server : list Request -> FetchOutcome.
Variable native_message : JsError -> string.

Definition LOG_FOOD_URL : string := "http://127.0.0.1:8000/api/log-food/".

Definition log_food_options (foodName : string) : Options.t :=
  {| Options.method := Some "POST";
     Options.headers := Some (HeadersObject {["Content-Type" := "application/json"]});
     Options.body := Some (JsonText (JObj [("query", JStr foodName)])) |}.

Definition ENTRIES_TODAY_URL : string := "http://127.0.0.1:8000/api/entries/today/".

Definition TODAY_SUMMARY_URL : string :=
  "http://127.0.0.1:8000/api/entries/today-summary/".

(** A request handed to [fetch] whose answer is not awaited here. *)
Definition issue (req : Request) : Async unit :=
  fun w => (Returned tt, emit (EvFetch req) w).

(** The part of a call of [fetchWithAuth] that runs before its first
    [await]: the token is read and the request is handed to [fetch]. *)
Definition fetchWithAuth_started (url : string) (options : Options.t) : Async unit :=
  let* token := getItem "access" in
  issue {| req_url := url;
           req_init := auth_init options ("Bearer " +:+ template_nullable token) |}.

(** [fetchData()], called and not awaited.  What runs before the caller goes
    on is the start of its two calls of [fetchWithAuth], in the order of the
    array given to [Promise.all]; the answers, and what [fetchData] does
    with them, come after the caller has settled. *)
Definition fetchData_started : Async unit :=
  fetchWithAuth_started ENTRIES_TODAY_URL no_options;;
  fetchWithAuth_started TODAY_SUMMARY_URL no_options.

(** The two requests [fetchData] starts with, from a storage. *)
Definition refetch (st : gmap string string) : list Request :=
  [initial_request st ENTRIES_TODAY_URL no_options;
   initial_request st TODAY_SUMMARY_URL no_options].

(** [handleLogFood] of the dashboard, on the text of the input. *)
Definition handleLogFood (foodName : string) : Task unit :=
  try_catch
    (response ← await (fetchWithAuth server LOG_FOOD_URL (log_food_options foodName));
     _ ← (if negb (ok response) then
            errData ← await (json response);
            detail ← await (lift (get_property errData "detail"));
            text ← await (lift (String_of (Some (or_else detail (JStr "Failed to log food")))));
            raise (ErrorObject text)
          else mret tt);
     _ ← update (SetFoodName "");
     _ ← update (SetError (JStr ""));
     await fetchData_started)
    (fun err => update (SetError (JStr (message native_message err)))).

(** [todaySummary.key || 0] *)
Definition or_zero (todaySummary : JsValue) (key : string) : JsValue :=
  match get_property todaySummary key with
  | Returned v => or_else v (JNum "0")
  | Thrown _ => JNum "0"
  end.

(** [chartData], for the summary held by the component: [null] before the
    first answer, then the body of the summary response. *)
Definition chartData (todaySummary : JsValue) : JsValue :=
  if truthy_value (Some todaySummary) then
    JObj [("labels", JArr [JStr "Carbs (g)"; JStr "Protein (g)"; JStr "Fat (g)"]);
          ("datasets",
           JArr [JObj [("label", JStr "Macros Breakdown");
                       ("data", JArr [or_zero todaySummary "total_carbs_g";
                                      or_zero todaySummary "total_protein_g";
                                      or_zero todaySummary "total_fat_g"]);
                       ("backgroundColor",
                        JArr [JStr "#3498db"; JStr "#2ecc71"; JStr "#e74c3c"]);
                       ("borderWidth", JNum "1")]])]
  else JNull.

(** [chart.datasets[0].data], what the pie draws. *)
Definition chart_points (chart : JsValue) : option (list JsValue) :=
  match get_property chart "datasets" with
  | Returned (Some (JArr (dataset :: _))) =>
      match get_property dataset "data" with
      | Returned (Some (JArr points)) => Some points
      | _ => None
      end
  | _ => None
  end.

(** [foodItems.slice(0, 4)], for the array of entries. *)
Definition latestEntries (foodItems : list JsValue) : list JsValue :=
  take 4 foodItems.

(** [foodItems.length > 4], the condition of the link to all entries. *)
Definition see_more (foodItems : list JsValue) : bool :=
  (4 <? length foodItems)%nat.

End Dashboard.
End Dashboard.

(** The two updates every submission of the registration form starts
    with. *)
Definition cleared : list Update := [SetError (JStr ""); SetSuccess ""].

(** ** Scenarios of the pages *)

(** The answer of the token endpoint to a good login. *)
Definition issued (access refresh : string) : Response :=
  {| status := 200;
     json_body := Some (JObj [("refresh", JStr refresh); ("access", JStr access)]) |}.

(** An answer outside 2xx with a JSON object of one member. *)
Definition refused (code : nat) (key text : string) : Response :=
  {| status := code; json_body := Some (JObj [(key, JStr text)]) |}.

(** A 200 whose body is not JSON. *)
Definition plain_ok : Response := {| status := 200; json_body := None |}.

(** The headers axios puts on a post of its own. *)
Definition accept_json : gmap string string :=
  {["Accept" := "application/json, text/plain, */*"]}.

(** The texts of the platform errors in one browser. *)
Definition chrome_message (e : JsError) : string :=
  match e with
  | NetworkError => "Failed to fetch"
  | SyntaxError => "Unexpected end of JSON input"
  | TypeError => "Cannot read properties of null"
  end.

(** The summary of a day without fat. *)
Definition lean_day : JsValue :=
  JObj [("total_calories", JNum "412.5"); ("total_carbs_g", JNum "50");
        ("total_protein_g", JNum "30.2"); ("total_fat_g", JNum "0")].

(** ** Proof support *)

Lemma status_401 (res : Response) : (status res =? 401)%nat = true <-> status res = 401.
Proof. apply Nat.eqb_eq. Qed.

Lemma status_not_401 (res : Response) : (status res =? 401)%nat = false <-> status res <> 401.
Proof. apply Nat.eqb_neq. Qed.

(** Exposes the body of the call as a tree of matches. *)
Ltac expose_call :=
  unfold call, fetchWithAuth, bind, getItem, setItem, navigate, json, lift,
    throw, ret, fetch, start, emit; cbn.

(** Uses the hypothesis [H : server reqs = answer] at a request list of the
    goal that is convertible with [reqs]. *)
Ltac answer H :=
  match type of H with
  | ?srv ?reqs = _ =>
      match goal with
      | |- context [srv ?reqs'] =>
          change (srv reqs') with (srv reqs); rewrite H; cbn
      end
  end.

(** Every call takes one of the branches. *)
Lemma call_branch server st url options :
  Branch server st url options
    (call server st url options).1 (call server st url options).2.
Proof.
  expose_call.
  destruct (server [_]) as [res|] eqn:Hfirst; cbn; [|by apply FirstRejected].
  destruct (status res =? 401)%nat eqn:Hstatus; cbn;
    [apply status_401 in Hstatus | apply status_not_401 in Hstatus];
    [|by apply PassThrough].
  destruct (truthy (st !! "refresh")) eqn:Hcred; cbn;
    [|by apply NoCredential].
  destruct (server [_; _]) as [refreshRes|] eqn:Hrefresh; cbn;
    [|by apply RefreshRejected with res].
  destruct (ok refreshRes) eqn:Hok; cbn;
    [|by apply RefreshRefused with refreshRes].
  destruct (json_body refreshRes) as [data|] eqn:Hjson; cbn;
    [|apply RefreshUnreadable with res refreshRes; auto].
  destruct (get_property data "access") as [access|e] eqn:Hprop; cbn.
  - destruct (String_of access) as [token|e] eqn:Hstring; cbn.
    + destruct (server [_; _; _]) as [res2|] eqn:Hretry; cbn;
        eapply Retried; eauto; cbv zeta; by answer Hretry.
    + by eapply TokenRefused.
  - destruct data; try discriminate. injection Hprop as <-.
    apply RefreshUnreadable with res refreshRes; auto.
Qed.

(** ** The pass-through path *)

(** C1: when the first response has a status other than 401, the call
    returns that response; the storage is the one it started from and the
    trace holds no set and no removal, under any key. *)
Theorem non_401_returned_unchanged server st url options res :
  server [initial_request st url options] = Resolve res ->
  status res <> 401 ->
  exists w,
    call server st url options = (Returned res, w) /\
    storage w = st /\
    writes (trace w) = [] /\
    requests (trace w) = [initial_request st url options].
Proof.
  intros Hfirst Hstatus. apply status_not_401 in Hstatus.
  eexists. split.
  - expose_call. answer Hfirst. rewrite Hstatus. reflexivity.
  - auto.
Qed.

(** ** Refresh and retry *)

(** C2: on a 401, with a refresh credential in the storage and a 2xx answer
    of the refresh endpoint whose body is an object with the string [new]
    under [access], the call issues three requests: the first one, one
    refresh call, and the caller's request once more with
    [Authorization: Bearer new]; it stores [new] under [access] and returns
    the response of the retry, whatever its status. *)
Theorem refresh_then_single_retry server st url options res refreshRes members new res2 :
  let r0 := initial_request st url options in
  let rr := refresh_request st in
  let r2 := retry_request url options new in
  server [r0] = Resolve res ->
  status res = 401 ->
  holds_credential st "refresh" ->
  server [r0; rr] = Resolve refreshRes ->
  ok refreshRes = true ->
  json_body refreshRes = Some (JObj members) ->
  member "access" members = Some (JStr new) ->
  server [r0; rr; r2] = Resolve res2 ->
  exists w,
    call server st url options = (Returned res2, w) /\
    requests (trace w) = [r0; rr; r2] /\
    header "Authorization" r2 = Some ("Bearer " +:+ new) /\
    storage w = <["access" := new]> st /\
    writes (trace w) = [EvSet "access" new] /\
    navigations (trace w) = [].
Proof.
  intros r0 rr r2 Hfirst Hstatus Hcred Hrefresh Hok Hjson Hmember Hretry.
  apply status_401 in Hstatus. unfold holds_credential in Hcred.
  eexists. split.
  - expose_call. answer Hfirst. rewrite Hstatus; cbn. rewrite Hcred; cbn.
    answer Hrefresh. rewrite Hok; cbn. rewrite Hjson; cbn. rewrite Hmember; cbn.
    answer Hretry. reflexivity.
  - cbn. repeat split; auto.
    unfold header, auth_headers. cbn. by rewrite lookup_insert_eq.
Qed.

(** ** Exhausted authentication *)

(** C3: on a 401 without a refresh credential in the storage, the callback
    runs once, the first request is the only one (no refresh call, no
    retry), the 401 response is returned, and the storage is unchanged. *)
Theorem missing_refresh_navigates_once server st url options res :
  server [initial_request st url options] = Resolve res ->
  status res = 401 ->
  ~ holds_credential st "refresh" ->
  exists w,
    call server st url options = (Returned res, w) /\
    navigations (trace w) = ["/"] /\
    requests (trace w) = [initial_request st url options] /\
    storage w = st /\
    writes (trace w) = [].
Proof.
  intros Hfirst Hstatus Hcred. apply status_401 in Hstatus.
  unfold holds_credential in Hcred. apply not_true_is_false in Hcred.
  eexists. split.
  - expose_call. answer Hfirst. rewrite Hstatus; cbn. rewrite Hcred. reflexivity.
  - auto.
Qed.

(** C4: on a 401 with a refresh credential, when the refresh endpoint
    answers outside 2xx, the callback runs once, the storage (so the access
    credential) is unchanged, and the call returns the first 401 response,
    not the one of the refresh endpoint. *)
Theorem refused_refresh_returns_original_401 server st url options res refreshRes :
  let r0 := initial_request st url options in
  let rr := refresh_request st in
  server [r0] = Resolve res ->
  status res = 401 ->
  holds_credential st "refresh" ->
  server [r0; rr] = Resolve refreshRes ->
  ok refreshRes = false ->
  exists w,
    call server st url options = (Returned res, w) /\
    navigations (trace w) = ["/"] /\
    storage w = st /\
    writes (trace w) = [] /\
    requests (trace w) = [r0; rr].
Proof.
  intros r0 rr Hfirst Hstatus Hcred Hrefresh Hok.
  apply status_401 in Hstatus. unfold holds_credential in Hcred.
  eexists. split.
  - expose_call. answer Hfirst. rewrite Hstatus; cbn. rewrite Hcred; cbn.
    answer Hrefresh. rewrite Hok. reflexivity.
  - auto.
Qed.

(** C6 as amended: on a 401 with a refresh credential, when the fetch of
    the refresh endpoint rejects, the call rejects with that failure (the
    body of [fetchWithAuth] has no [catch]); the callback does not run, the
    storage is unchanged and no retry is issued. *)
Theorem rejected_refresh_propagates server st url options res :
  let r0 := initial_request st url options in
  let rr := refresh_request st in
  server [r0] = Resolve res ->
  status res = 401 ->
  holds_credential st "refresh" ->
  server [r0; rr] = Reject ->
  exists w,
    call server st url options = (Thrown NetworkError, w) /\
    navigations (trace w) = [] /\
    storage w = st /\
    writes (trace w) = [] /\
    requests (trace w) = [r0; rr].
Proof.
  intros r0 rr Hfirst Hstatus Hcred Hrefresh.
  apply status_401 in Hstatus. unfold holds_credential in Hcred.
  eexists. split.
  - expose_call. answer Hfirst. rewrite Hstatus; cbn. rewrite Hcred; cbn.
    answer Hrefresh. reflexivity.
  - auto.
Qed.

(** ** Properties of every call *)

Section EveryCall.

Variable server : list Request -> FetchOutcome.
Variable st : gmap string string.
Variable url : string.
Variable options : Options.t.

Let r0 := initial_request st url options.
Let rr := refresh_request st.
Let o := (call server st url options).1.
Let w := (call server st url options).2.

(** C5: the requests of a call are the first one, then at most one
    refresh call, then at most one retry: three at most.  The answer to
    the retry, a 401 included, is what the call returns; no request
    follows it. *)
Theorem at_most_one_refresh_and_one_retry :
  (requests (trace w) = [r0] \/
   requests (trace w) = [r0; rr] \/
   exists access, requests (trace w) = [r0; rr; retry_request url options access]) /\
  length (requests (trace w)) <= 3 /\
  (forall access res2,
      server [r0; rr; retry_request url options access] = Resolve res2 ->
      requests (trace w) = [r0; rr; retry_request url options access] ->
      status res2 = 401 ->
      o = Returned res2).
Proof.
  subst o w. destruct (call_branch server st url options); cbn;
    (split; [eauto | split; [lia|]]);
    intros access' res2 Hretry Hreqs Hstatus; try discriminate.
  match goal with
  | Hlast : match server _ with _ => _ end |- _ =>
      rewrite Hreqs, Hretry in Hlast; exact Hlast
  end.
Qed.

(** C8: whatever the branch, the [refresh] key keeps its value and the
    trace holds no set and no removal of it.  The only write a call can
    make is one set of [access], and it makes it only after a 2xx answer
    of the refresh endpoint; otherwise the storage is untouched. *)
Theorem refresh_key_never_written :
  storage w !! "refresh" = st !! "refresh" /\
  (forall e, e ∈ writes (trace w) -> exists v, e = EvSet "access" v) /\
  (writes (trace w) = [] /\ storage w = st \/
   exists refreshRes v,
     server [r0; rr] = Resolve refreshRes /\ ok refreshRes = true /\
     writes (trace w) = [EvSet "access" v] /\
     storage w = <["access" := v]> st).
Proof.
  subst o w. destruct (call_branch server st url options); cbn;
    try (split; [done | split; [by intros ? ?%elem_of_nil | left; auto]]).
  split; [by rewrite lookup_insert_ne | split].
  - intros ? ->%list_elem_of_singleton. eauto.
  - right. exists refreshRes, token. auto.
Qed.

(** C9 as amended: the callback runs zero times or once, with the path
    ["/"].  It runs once exactly when the first response is a 401 and
    either the storage holds no refresh credential or the refresh
    endpoint answers outside 2xx; in every other case, a rejected fetch
    included, it does not run. *)
Theorem navigation_zero_or_once :
  (navigations (trace w) = [] \/ navigations (trace w) = ["/"]) /\
  (navigations (trace w) = ["/"] <->
   exists res,
     server [r0] = Resolve res /\ status res = 401 /\
     (~ holds_credential st "refresh" \/
      holds_credential st "refresh" /\
      exists refreshRes,
        server [r0; rr] = Resolve refreshRes /\ ok refreshRes = false)).
Proof.
  unfold holds_credential.
  subst o w r0 rr. destruct (call_branch server st url options); cbn;
    (split; [auto|]); split; try done;
    try (intros (res' & Hfirst & Hstatus &
                 [Hno | (_ & refreshRes' & Hrefresh & Hok)]); congruence).
  - intros _. exists res. split_and!; auto. left. congruence.
  - intros _. exists res. split_and!; auto. right. eauto.
Qed.

End EveryCall.

(** ** The headers of the issued request *)

(** Every call issues its first request, whatever the storage holds. *)
Lemma first_request_issued server st url options :
  exists rest,
    requests (trace (call server st url options).2)
    = initial_request st url options :: rest.
Proof. destruct (call_branch server st url options); cbn; eauto. Qed.

(** C7 as amended: the first request of a call, and the retry, carry
    [Authorization: Bearer <token>], and [method] and [body] are the
    caller's.  When [options.headers] is a plain object, or absent, every
    header of the caller other than [Authorization] is carried with the
    caller's value, a caller's [Authorization] is replaced by the bearer,
    [Content-Type] is [application/json] unless the caller gives one, and
    no other header is added.  When [options.headers] is a [Headers]
    instance the spread copies none of its entries: the request carries
    [Content-Type: application/json] and the bearer only.  When it is an
    array of pairs the spread copies its elements under their indices, so
    that the request names no header but [Authorization], [Content-Type]
    and indices of the array. *)
Theorem caller_headers_kept_except_authorization server st url options bearer :
  let req := {| req_url := url; req_init := auth_init options bearer |} in
  (exists rest,
      requests (trace (call server st url options).2)
      = initial_request st url options :: rest) /\
  (initial_request st url options
   = {| req_url := url;
        req_init := auth_init options ("Bearer " +:+ template_nullable (st !! "access")) |}) /\
  header "Authorization" req = Some bearer /\
  method (req_init req) = Options.method options /\
  body (req_init req) = Options.body options /\
  (forall caller,
      Options.headers options = Some (HeadersObject caller) \/
      Options.headers options = None /\ caller = ∅ ->
      (forall name value,
          name <> "Authorization" ->
          caller !! name = Some value -> header name req = Some value) /\
      header "Content-Type" req
      = Some (default "application/json" (caller !! "Content-Type")) /\
      (forall name,
          name <> "Authorization" -> name <> "Content-Type" ->
          caller !! name = None -> header name req = None)) /\
  (forall entries,
      Options.headers options = Some (HeadersInstance entries) ->
      headers (req_init req)
      = Some (<["Authorization" := bearer]> {["Content-Type" := "application/json"]})) /\
  (forall pairs,
      Options.headers options = Some (HeadersPairs pairs) ->
      forall name, is_Some (header name req) ->
        name = "Authorization" \/ name = "Content-Type" \/
        exists i, name = pretty i /\ i < length pairs).
Proof.
  intros req. split; [apply first_request_issued|].
  split; [done|].
  unfold header; cbn. unfold auth_headers. split_and!; try done.
  - by rewrite lookup_insert_eq.
  - intros caller Hplain.
    assert (Hspread : spread_headers (Options.headers options) = caller).
    { by destruct Hplain as [-> | [-> ->]]. }
    rewrite Hspread. split_and!.
    + intros name value Hname Hcaller.
      rewrite lookup_insert_ne by done. by apply lookup_union_Some_l.
    + rewrite lookup_insert_ne by done.
      rewrite lookup_union. destruct (caller !! "Content-Type"); by cbn.
    + intros name Hauth Htype Hcaller.
      rewrite lookup_insert_ne by done. apply lookup_union_None. split; [done|].
      by rewrite lookup_singleton_ne.
  - intros entries ->. cbn. by rewrite (left_id_L ∅ (∪)).
  - intros pairs -> name [value Hvalue]. cbn in Hvalue.
    destruct (decide (name = "Authorization")) as [|Hauth]; [by left|].
    destruct (decide (name = "Content-Type")) as [|Htype]; [by right; left|].
    right. right.
    rewrite lookup_insert_ne in Hvalue by done.
    apply lookup_union_Some_raw in Hvalue as [Hindex | [_ Hdefault]].
    + apply elem_of_list_to_map_2 in Hindex.
      apply elem_of_lookup_imap_1 in Hindex as (i & pair & [= -> _] & Hpair).
      exists i. split; [done|]. by apply lookup_lt_Some in Hpair.
    + by rewrite lookup_singleton_ne in Hdefault.
Qed.

(** C10: with no [access] key in the storage the first request is issued
    all the same, with the header [Authorization: Bearer null]; the axios
    interceptor, on the same storage, leaves the headers of the
    configuration as they are. *)
Theorem absent_access_sends_bearer_null server st url options config_headers :
  st !! "access" = None ->
  (exists rest,
      requests (trace (call server st url options).2)
      = initial_request st url options :: rest) /\
  header "Authorization" (initial_request st url options) = Some "Bearer null" /\
  interceptor config_headers (start st) = (Returned config_headers, start st).
Proof.
  intros Habsent. split; [apply first_request_issued|]. split.
  - unfold header, initial_request; cbn. unfold auth_headers.
    by rewrite lookup_insert_eq, Habsent.
  - unfold interceptor, bind, getItem; cbn. by rewrite Habsent.
Qed.

Lemma non_401_returned_unchanged_witness :
  exists w,
    call (scripted [Resolve entry]) logged_in entries_url no_options
    = (Returned entry, w) /\
    storage w = logged_in /\
    writes (trace w) = [] /\
    requests (trace w) = [initial_request logged_in entries_url no_options].
Proof.
  apply non_401_returned_unchanged; [reflexivity | cbn; lia].
Defined.

Lemma refresh_then_single_retry_witness :
  exists w,
    call (api_server "r1" "new") logged_in entries_url no_options
    = (Returned entry, w) /\
    requests (trace w)
    = [initial_request logged_in entries_url no_options;
       refresh_request logged_in;
       retry_request entries_url no_options "new"] /\
    header "Authorization" (retry_request entries_url no_options "new")
    = Some "Bearer new" /\
    storage w = <["access" := "new"]> logged_in /\
    writes (trace w) = [EvSet "access" "new"] /\
    navigations (trace w) = [].
Proof.
  apply (refresh_then_single_retry (api_server "r1" "new") logged_in
           entries_url no_options unauthorized (refreshed "new")
           [("access", JStr "new")] "new" entry);
    try (vm_compute; reflexivity).
Defined.

Lemma missing_refresh_navigates_once_witness :
  exists w,
    call (scripted [Resolve unauthorized]) access_only entries_url no_options
    = (Returned unauthorized, w) /\
    navigations (trace w) = ["/"] /\
    requests (trace w) = [initial_request access_only entries_url no_options] /\
    storage w = access_only /\
    writes (trace w) = [].
Proof.
  apply missing_refresh_navigates_once; [reflexivity | reflexivity |].
  unfold holds_credential. vm_compute. discriminate.
Defined.

Lemma refused_refresh_returns_original_401_witness :
  exists w,
    call (scripted [Resolve unauthorized; Resolve {| status := 403; json_body := None |}])
      logged_in entries_url no_options
    = (Returned unauthorized, w) /\
    navigations (trace w) = ["/"] /\
    storage w = logged_in /\
    writes (trace w) = [] /\
    requests (trace w)
    = [initial_request logged_in entries_url no_options; refresh_request logged_in].
Proof.
  apply (refused_refresh_returns_original_401 _ _ _ _ _
           {| status := 403; json_body := None |});
    reflexivity.
Defined.

Lemma rejected_refresh_propagates_witness :
  exists w,
    call (scripted [Resolve unauthorized; Reject]) logged_in entries_url no_options
    = (Thrown NetworkError, w) /\
    navigations (trace w) = [] /\
    storage w = logged_in /\
    writes (trace w) = [] /\
    requests (trace w)
    = [initial_request logged_in entries_url no_options; refresh_request logged_in].
Proof.
  apply (rejected_refresh_propagates _ _ _ _ unauthorized); reflexivity.
Defined.

(** The retry is answered with a second 401: the call returns it after three
    requests. *)
Lemma at_most_one_refresh_and_one_retry_witness :
  let server :=
    scripted [Resolve unauthorized; Resolve (refreshed "new"); Resolve unauthorized] in
  (call server logged_in entries_url no_options).1 = Returned unauthorized /\
  length (requests (trace (call server logged_in entries_url no_options).2)) <= 3.
Proof.
  intros server.
  destruct (at_most_one_refresh_and_one_retry server logged_in entries_url no_options)
    as (_ & Hlength & Hlast).
  split; [|exact Hlength].
  apply (Hlast "new"); [reflexivity | vm_compute; reflexivity | reflexivity].
Defined.

Lemma refresh_key_never_written_witness :
  let w := (call (api_server "r1" "new") logged_in entries_url no_options).2 in
  storage w !! "refresh" = Some "r1" /\
  (exists v, EvSet "access" "new" = EvSet "access" v) /\
  (exists v, writes (trace w) = [EvSet "access" v] /\ storage w = <["access" := v]> logged_in).
Proof.
  intros w.
  destruct (refresh_key_never_written (api_server "r1" "new") logged_in
              entries_url no_options) as (Hkept & Hwrites & Hbranch).
  fold w in Hkept, Hwrites, Hbranch. split_and!.
  - rewrite Hkept. vm_compute. reflexivity.
  - apply Hwrites. vm_compute. apply list_elem_of_here.
  - destruct Hbranch as [[Hnone _] | (refreshRes & v & _ & _ & Hone & Hstored)].
    + vm_compute in Hnone. discriminate Hnone.
    + exists v. split; [exact Hone | exact Hstored].
Defined.

Lemma navigation_zero_or_once_witness :
  navigations
    (trace (call (scripted [Resolve unauthorized]) access_only entries_url no_options).2)
  = ["/"].
Proof.
  apply (navigation_zero_or_once (scripted [Resolve unauthorized]) access_only
           entries_url no_options).
  exists unauthorized. split; [reflexivity|]. split; [reflexivity|].
  left. unfold holds_credential. vm_compute. discriminate.
Defined.

Lemma caller_headers_kept_except_authorization_witness :
  header "X-Trace"
    {| req_url := entries_url; req_init := auth_init basic_auth_options "Bearer old" |}
  = Some "7".
Proof.
  destruct (caller_headers_kept_except_authorization (scripted []) logged_in
              entries_url basic_auth_options "Bearer old")
    as (_ & _ & _ & _ & _ & Hplain & _).
  destruct (Hplain {["Authorization" := "Basic dXNlcjpwdw=="; "X-Trace" := "7"]})
    as (Hkept & _); [left; reflexivity|].
  apply Hkept; [discriminate | vm_compute; reflexivity].
Defined.

Lemma absent_access_sends_bearer_null_witness :
  (exists rest,
      requests (trace (call (scripted []) ∅ entries_url no_options).2)
      = initial_request ∅ entries_url no_options :: rest) /\
  header "Authorization" (initial_request ∅ entries_url no_options)
  = Some "Bearer null" /\
  interceptor ∅ (start ∅) = (Returned ∅, start ∅).
Proof.
  apply absent_access_sends_bearer_null. reflexivity.
Defined.

(** ** Where the specification and the code part *)

(** C6 fails: the first response is a 401, the storage holds a refresh
    credential and the fetch of the refresh endpoint rejects; the call
    rejects and the callback has not run. *)
Lemma rejected_refresh_counterexample :
  let server := scripted [Resolve unauthorized; Reject] in
  let r0 := initial_request logged_in entries_url no_options in
  let result := call server logged_in entries_url no_options in
  server [r0] = Resolve unauthorized /\
  status unauthorized = 401 /\
  holds_credential logged_in "refresh" /\
  server [r0; refresh_request logged_in] = Reject /\
  result.1 = Thrown NetworkError /\
  navigations (trace result.2) = [] /\
  ~ (navigations (trace result.2) = ["/"] /\ exists res, result.1 = Returned res).
Proof.
  cbv zeta. split_and!; try (vm_compute; reflexivity).
  intros [Hnav _]. vm_compute in Hnav. discriminate.
Qed.

(** C9 fails on its [exactly once otherwise]: the first response is a 401
    and no refresh succeeds, since the fetch of the refresh endpoint
    rejects, yet the callback runs zero times. *)
Lemma navigation_exactly_once_counterexample :
  let server := scripted [Resolve unauthorized; Reject] in
  let r0 := initial_request logged_in entries_url no_options in
  let w := (call server logged_in entries_url no_options).2 in
  server [r0] = Resolve unauthorized /\
  status unauthorized = 401 /\
  server [r0; refresh_request logged_in] = Reject /\
  requests (trace w) = [r0; refresh_request logged_in] /\
  navigations (trace w) <> ["/"].
Proof.
  cbv zeta. split_and!; try (vm_compute; reflexivity).
  vm_compute. discriminate.
Qed.

(** C7 fails on its [no caller-supplied header is silently dropped]: the
    caller's [Authorization] header is replaced by the bearer header; and
    a header given in a [Headers] instance is not carried at all. *)
Lemma caller_authorization_replaced_counterexample :
  let r0 := initial_request logged_in entries_url basic_auth_options in
  let r0' := initial_request logged_in entries_url headers_instance_options in
  ("Authorization", "Basic dXNlcjpwdw==") ∈ supplied_headers basic_auth_options /\
  header "Authorization" r0 = Some "Bearer old" /\
  requests (trace (call (scripted [Resolve entry]) logged_in entries_url
                     basic_auth_options).2) = [r0] /\
  ~ no_caller_header_dropped basic_auth_options r0 /\
  ("x-trace", "7") ∈ supplied_headers headers_instance_options /\
  header "x-trace" r0' = None /\
  requests (trace (call (scripted [Resolve entry]) logged_in entries_url
                     headers_instance_options).2) = [r0'] /\
  ~ no_caller_header_dropped headers_instance_options r0'.
Proof.
  cbv zeta.
  assert (Hbasic : ("Authorization", "Basic dXNlcjpwdw==")
                   ∈ supplied_headers basic_auth_options).
  { unfold supplied_headers; cbn. apply elem_of_map_to_list. vm_compute. reflexivity. }
  assert (Hinstance : ("x-trace", "7") ∈ supplied_headers headers_instance_options).
  { unfold supplied_headers; cbn. apply list_elem_of_here. }
  split_and!; try done; try (vm_compute; reflexivity).
  - intros Hkept. specialize (Hkept _ _ Hbasic). vm_compute in Hkept. discriminate.
  - intros Hkept. specialize (Hkept _ _ Hinstance). vm_compute in Hkept. discriminate.
Qed.

(** ** Examples *)

(** The two scenarios of the specification's testable properties. *)
Example expired_access_is_refreshed :
  let result := call (api_server "r1" "new") logged_in entries_url no_options in
  result.1 = Returned entry /\
  storage result.2 !! "access" = Some "new" /\
  storage result.2 !! "refresh" = Some "r1" /\
  length (requests (trace result.2)) = 3.
Proof. vm_compute. auto. Qed.

Example no_refresh_token_redirects :
  let result := call (api_server "r1" "new") access_only entries_url no_options in
  result.1 = Returned unauthorized /\
  navigations (trace result.2) = ["/"] /\
  length (requests (trace result.2)) = 1.
Proof. vm_compute. auto. Qed.

(** An empty string under [refresh] fails the test [!refresh] like a missing
    key: it is no credential for [holds_credential]. *)
Example empty_refresh_is_no_credential :
  let st : gmap string string := {["access" := "old"; "refresh" := ""]} in
  let result := call (api_server "" "new") st entries_url no_options in
  ~ holds_credential st "refresh" /\
  result.1 = Returned unauthorized /\
  navigations (trace result.2) = ["/"] /\
  length (requests (trace result.2)) = 1.
Proof.
  cbv zeta. split; [unfold holds_credential; vm_compute; discriminate|].
  vm_compute. auto.
Qed.

(** A 2xx refresh answer without an [access] member stores, and sends, the
    text of [undefined]. *)
Example refresh_without_access_member :
  let server :=
    scripted [Resolve unauthorized;
              Resolve {| status := 200; json_body := Some (JObj []) |};
              Resolve unauthorized] in
  let result := call server logged_in entries_url no_options in
  storage result.2 !! "access" = Some "undefined" /\
  (header "Authorization" <$> last (requests (trace result.2)))
  = Some (Some "Bearer undefined").
Proof. vm_compute. auto. Qed.

Example to_string_array :
  to_string (JArr [JNum "1"; JNull; JArr [JStr "a"; JBool true]; JObj []])
  = Some "1,,a,true,[object Object]".
Proof. reflexivity. Qed.

Example to_string_hidden_method :
  to_string (JArr [JStr "a"; JObj [("toString", JNum "1")]]) = None.
Proof. reflexivity. Qed.

(** A 2xx refresh answer whose [access] is an object that cannot be made a
    string: [setItem] throws, nothing is written and no retry is sent. *)
Example refresh_with_unconvertible_access :
  let server :=
    scripted [Resolve unauthorized;
              Resolve {| status := 200;
                         json_body := Some (JObj [("access", JObj [("toString", JNum "1")])]) |};
              Resolve entry] in
  let result := call server logged_in entries_url no_options in
  result.1 = Thrown TypeError /\
  storage result.2 = logged_in /\
  length (requests (trace result.2)) = 2 /\
  navigations (trace result.2) = [].
Proof. vm_compute. auto. Qed.

Example member_last_wins :
  member "access" [("access", JStr "a"); ("x", JNull); ("access", JStr "b")]
  = Some (JStr "b").
Proof. reflexivity. Qed.

Example logout_clears_both_keys :
  let result := confirmLogout (start logged_in) in
  storage result.2 = ∅ /\
  trace result.2 = [EvRemove "access"; EvRemove "refresh"; EvNavigate "/"].
Proof. vm_compute. auto. Qed.

(** ** Logout and the interceptor *)

(** Exposes the body of a handler as a tree of matches. *)
Ltac expose_task :=
  unfold try_catch, mbind, Task_bind, mret, Task_ret, await, update, raise,
    open_page, bind, getItem, setItem, removeItem, navigate, json, lift, throw,
    ret, fetch, start, emit; cbn.

(** The storage after [confirmLogout]. *)
Lemma confirmLogout_storage (w : World) :
  storage (confirmLogout w).2 = delete "refresh" (delete "access" (storage w)).
Proof. reflexivity. Qed.

(** X1: [confirmLogout] removes the two tokens and no other key, goes to
    ["/"], and sends nothing, from any storage. *)
Theorem confirmLogout_removes_both_tokens (w : World) :
  let w' := (confirmLogout w).2 in
  (confirmLogout w).1 = Returned tt /\
  storage w' !! "access" = None /\
  storage w' !! "refresh" = None /\
  (forall key, key <> "access" -> key <> "refresh" ->
               storage w' !! key = storage w !! key) /\
  trace w' = (trace w ++ [EvRemove "access"; EvRemove "refresh"; EvNavigate "/"])%list.
Proof.
  unfold confirmLogout. expose_task. split_and!; try done.
  - by rewrite lookup_delete_ne, lookup_delete_eq.
  - by rewrite lookup_delete_eq.
  - intros key Haccess Hrefresh. by rewrite !lookup_delete_ne.
  - by rewrite <- !app_assoc.
Qed.

Lemma confirmLogout_removes_both_tokens_witness :
  storage (confirmLogout (start {["access" := "a"; "refresh" := "r"; "theme" := "dark"]})).2
    !! "theme" = Some "dark".
Proof.
  destruct (confirmLogout_removes_both_tokens
              (start {["access" := "a"; "refresh" := "r"; "theme" := "dark"]}))
    as (_ & _ & _ & Hkept & _).
  rewrite Hkept; [vm_compute; reflexivity | discriminate | discriminate].
Defined.

(** X2: after a logout, a call of [fetchWithAuth] sends one request, with
    [Bearer null], and no refresh call, whatever the server answers; it
    writes nothing, and a 401 sends the user to ["/"]. *)
Theorem fetch_after_logout_sends_one_request server w url options :
  let st := storage (confirmLogout w).2 in
  let result := call server st url options in
  requests (trace result.2) = [initial_request st url options] /\
  header "Authorization" (initial_request st url options) = Some "Bearer null" /\
  storage result.2 = st /\
  (forall res, server [initial_request st url options] = Resolve res ->
               status res = 401 ->
               result.1 = Returned res /\ navigations (trace result.2) = ["/"]).
Proof.
  intros st result.
  assert (Haccess : st !! "access" = None).
  { subst st. rewrite confirmLogout_storage.
    by rewrite lookup_delete_ne, lookup_delete_eq. }
  assert (Hrefresh : st !! "refresh" = None).
  { subst st. rewrite confirmLogout_storage. by rewrite lookup_delete_eq. }
  clearbody st.
  assert (Hfalsy : truthy (st !! "refresh") = false) by by rewrite Hrefresh.
  split_and!.
  - subst result. destruct (call_branch server st url options); cbn; congruence.
  - unfold header, initial_request; cbn. unfold auth_headers.
    by rewrite lookup_insert_eq, Haccess.
  - subst result. destruct (call_branch server st url options); cbn; congruence.
  - intros res Hfirst Hstatus. subst result.
    destruct (call_branch server st url options); cbn; split; congruence.
Qed.

Lemma fetch_after_logout_sends_one_request_witness :
  navigations
    (trace (call (scripted [Resolve unauthorized])
              (storage (confirmLogout (start logged_in)).2) entries_url no_options).2)
  = ["/"].
Proof.
  destruct (fetch_after_logout_sends_one_request (scripted [Resolve unauthorized])
              (start logged_in) entries_url no_options) as (_ & _ & _ & Hnav).
  apply (Hnav unauthorized); reflexivity.
Defined.

(** X3: the interceptor of the axios instance writes nothing; it changes no
    header but [Authorization], which it sets to the bearer of the stored
    token when the token is truthy; for a missing or empty token the
    headers pass as they are, an [Authorization] of the configuration
    included. *)
Theorem interceptor_touches_only_authorization config_headers w :
  exists h,
    interceptor config_headers w = (Returned h, w) /\
    (forall name, name <> "Authorization" -> h !! name = config_headers !! name) /\
    (forall token, storage w !! "access" = Some token -> token <> "" ->
                   h !! "Authorization" = Some ("Bearer " +:+ token)) /\
    (truthy (storage w !! "access") = false -> h = config_headers).
Proof.
  unfold interceptor. expose_task.
  destruct (storage w !! "access") as [token|] eqn:Htoken; cbn.
  - destruct (String.eqb token "") eqn:Hempty; cbn.
    + eexists. split; [done|]. split_and!; try done.
      intros ? [= <-] Hne. by apply String.eqb_eq in Hempty.
    + eexists. split; [done|]. split_and!; try done.
      * intros name Hname. by rewrite lookup_insert_ne.
      * intros ? [= <-] _. by rewrite lookup_insert_eq.
  - eexists. split; [done|]. split_and!; done.
Qed.

Lemma interceptor_touches_only_authorization_witness :
  exists h,
    interceptor {["Accept" := "application/json"]} (start logged_in)
    = (Returned h, start logged_in) /\
    h !! "Authorization" = Some "Bearer old".
Proof.
  destruct (interceptor_touches_only_authorization
              {["Accept" := "application/json"]} (start logged_in))
    as (h & Hrun & _ & Hset & _).
  exists h. split; [exact Hrun|].
  apply (Hset "old"); [vm_compute; reflexivity | discriminate].
Defined.

(** ** The login page *)

(** The login request and what axios makes of its answer. *)
Lemma login_post server axios_headers st username password :
  let req := Login.login_request axios_headers st username password in
  let p := {| world := {| storage := st; trace := [EvFetch req] |}; updates := [] |} in
  Login.post server axios_headers "token/"
    (JObj [("username", JStr username); ("password", JStr password)]) (open_page st)
  = match server [req] with
    | Resolve res => (if ok res then Done res else Raised (AxiosError (Some res)), p)
    | Reject => (Raised (AxiosError None), p)
    end.
Proof.
  unfold Login.post, Login.send, Login.login_request, interceptor. expose_task.
  destruct (truthy (st !! "access")); cbn; destruct (server _); reflexivity.
Qed.

(** Opens [Login.handleSubmit] at the answer [H] of the server. *)
Ltac login_answer H :=
  unfold Login.handleSubmit, try_catch, mbind, Task_bind;
  rewrite login_post; cbv zeta; rewrite H.

(** X4: a login answered 2xx with an object that has the strings [a] and
    [r] under [access] and [refresh] stores both, under their keys, goes to
    ["/dashboard"], reports no error and has sent one request. *)
Theorem login_stores_both_tokens server axios_headers st username password
    res members a r :
  let req := Login.login_request axios_headers st username password in
  server [req] = Resolve res ->
  ok res = true ->
  json_body res = Some (JObj members) ->
  member "access" members = Some (JStr a) ->
  member "refresh" members = Some (JStr r) ->
  exists p,
    Login.handleSubmit server axios_headers username password (open_page st)
    = (Done tt, p) /\
    storage (world p) = <["refresh" := r]> (<["access" := a]> st) /\
    writes (trace (world p)) = [EvSet "access" a; EvSet "refresh" r] /\
    navigations (trace (world p)) = ["/dashboard"] /\
    requests (trace (world p)) = [req] /\
    updates p = [].
Proof.
  intros req Hfirst Hok Hjson Haccess Hrefresh. subst req.
  eexists. split.
  - login_answer Hfirst. rewrite Hok.
    unfold Login.data_property. rewrite Hjson. expose_task.
    rewrite Haccess; cbn. rewrite Hrefresh; cbn. reflexivity.
  - cbn. auto.
Qed.

(** X5: a login that axios rejects, for a status outside 2xx or for want of
    a response, leaves the storage as it was, does not navigate, and sets
    the error of the form. *)
Theorem login_rejected_reports_error server axios_headers st username password :
  let req := Login.login_request axios_headers st username password in
  (server [req] = Reject \/ exists res, server [req] = Resolve res /\ ok res = false) ->
  exists p,
    Login.handleSubmit server axios_headers username password (open_page st)
    = (Done tt, p) /\
    storage (world p) = st /\
    writes (trace (world p)) = [] /\
    navigations (trace (world p)) = [] /\
    updates p = [SetError (JStr "Invalid username or password")].
Proof.
  intros req [Hfirst | (res & Hfirst & Hok)]; subst req; eexists; split;
    try (login_answer Hfirst; rewrite ?Hok; reflexivity); cbn; auto.
Qed.

(** A login sends its request and no other. *)
Lemma login_sends_one_request server axios_headers st username password :
  requests
    (trace (world (Login.handleSubmit server axios_headers username password
                     (open_page st)).2))
  = [Login.login_request axios_headers st username password].
Proof.
  unfold Login.handleSubmit, try_catch, mbind, Task_bind.
  rewrite login_post. cbv zeta.
  destruct (server _) as [res|]; [destruct (ok res)|]; expose_task; try done.
  destruct (Login.data_property res "access") as [access|]; cbn; try done.
  destruct (String_of access) as [a|]; cbn; try done.
  destruct (Login.data_property res "refresh") as [refresh|]; cbn; try done.
  by destruct (String_of refresh) as [r|].
Qed.

(** X6: whatever the answer, a login sends one request and then either goes
    to ["/dashboard"], having stored both tokens and reported nothing, or
    sets the error and does not navigate; the refresh token is never stored
    without the access token. *)
Theorem login_navigates_or_reports server axios_headers st username password :
  let result :=
    Login.handleSubmit server axios_headers username password (open_page st) in
  let w := world result.2 in
  result.1 = Done tt /\
  requests (trace w) = [Login.login_request axios_headers st username password] /\
  (navigations (trace w) = ["/dashboard"] /\ updates result.2 = [] /\
   (exists a r, writes (trace w) = [EvSet "access" a; EvSet "refresh" r] /\
                storage w = <["refresh" := r]> (<["access" := a]> st))
   \/
   navigations (trace w) = [] /\
   updates result.2 = [SetError (JStr "Invalid username or password")] /\
   (writes (trace w) = [] /\ storage w = st \/
    exists a, writes (trace w) = [EvSet "access" a] /\ storage w = <["access" := a]> st)).
Proof.
  cbv zeta. unfold Login.handleSubmit, try_catch, mbind, Task_bind.
  rewrite login_post. cbv zeta.
  destruct (server _) as [res|]; [destruct (ok res)|]; expose_task;
    try (split_and!; try done; right; split_and!; try done; by left).
  destruct (Login.data_property res "access") as [access|]; cbn;
    try (split_and!; try done; right; split_and!; try done; by left).
  destruct (String_of access) as [a|]; cbn;
    try (split_and!; try done; right; split_and!; try done; by left).
  destruct (Login.data_property res "refresh") as [refresh|]; cbn;
    try (split_and!; try done; right; split_and!; try done; right; eauto).
  destruct (String_of refresh) as [r|]; cbn;
    try (split_and!; try done; right; split_and!; try done; right; eauto).
  split_and!; try done. left. split_and!; eauto.
Qed.

(** X7: the login request itself passes the interceptor: with a non-empty
    access token in the storage it carries the bearer of that token, and
    with none its [Authorization] is the one of axios' own headers.  It
    goes to ["/api/token/"] with the user name and the password. *)
Theorem login_request_carries_stored_token server axios_headers st username password :
  let req := Login.login_request axios_headers st username password in
  requests
    (trace (world (Login.handleSubmit server axios_headers username password
                     (open_page st)).2)) = [req] /\
  req_url req = "/api/token/" /\
  body (req_init req)
  = Some (JsonText (JObj [("username", JStr username); ("password", JStr password)])) /\
  (forall token, st !! "access" = Some token -> token <> "" ->
                 header "Authorization" req = Some ("Bearer " +:+ token)) /\
  (st !! "access" = None ->
   header "Authorization" req = axios_headers !! "Authorization").
Proof.
  intros req. split; [apply login_sends_one_request|].
  subst req. unfold Login.login_request, header; cbn. split_and!; try done.
  - intros token Htoken Hne. rewrite Htoken; cbn.
    apply String.eqb_neq in Hne. rewrite Hne; cbn. by rewrite lookup_insert_eq.
  - by intros ->.
Qed.

(** X8: a login answered 2xx with a body that is not JSON stores the text
    [undefined] under both keys and goes to the dashboard; the storage then
    holds a refresh credential for [fetchWithAuth]. *)
Theorem login_without_json_stores_undefined server axios_headers st username password res :
  let req := Login.login_request axios_headers st username password in
  server [req] = Resolve res ->
  ok res = true ->
  json_body res = None ->
  exists p,
    Login.handleSubmit server axios_headers username password (open_page st)
    = (Done tt, p) /\
    storage (world p) = <["refresh" := "undefined"]> (<["access" := "undefined"]> st) /\
    navigations (trace (world p)) = ["/dashboard"] /\
    updates p = [] /\
    holds_credential (storage (world p)) "refresh".
Proof.
  intros req Hfirst Hok Hjson. subst req.
  eexists. split.
  - login_answer Hfirst. rewrite Hok.
    unfold Login.data_property. rewrite Hjson. expose_task. reflexivity.
  - cbn. split_and!; try done.
    unfold holds_credential. by rewrite lookup_insert_eq.
Qed.

(** X9: after a login that stored the tokens [a] and [r], a call of
    [fetchWithAuth], against any server, sends its first request with the
    bearer of [a]; and when that request is answered with a 401 the call
    goes on to the refresh endpoint, with [r] in the body of the refresh
    call. *)
Theorem login_then_fetch_uses_new_tokens server axios_headers st username password
    res members a r server' url options :
  let req := Login.login_request axios_headers st username password in
  let st' :=
    storage (world (Login.handleSubmit server axios_headers username password
                      (open_page st)).2) in
  let sent := requests (trace (call server' st' url options).2) in
  server [req] = Resolve res ->
  ok res = true ->
  json_body res = Some (JObj members) ->
  member "access" members = Some (JStr a) ->
  member "refresh" members = Some (JStr r) ->
  r <> "" ->
  (exists first rest,
      sent = first :: rest /\
      req_url first = url /\
      header "Authorization" first = Some ("Bearer " +:+ a)) /\
  (forall res',
      server' [initial_request st' url options] = Resolve res' ->
      status res' = 401 ->
      exists second rest,
        sent = initial_request st' url options :: second :: rest /\
        req_url second = REFRESH_URL /\
        body (req_init second) = Some (JsonText (JObj [("refresh", JStr r)]))).
Proof.
  intros req st' sent Hfirst Hok Hjson Haccess Hrefresh Hr. subst req.
  assert (Hst : st' = <["refresh" := r]> (<["access" := a]> st)).
  { subst st'. login_answer Hfirst. rewrite Hok.
    unfold Login.data_property. rewrite Hjson. expose_task.
    rewrite Haccess; cbn. by rewrite Hrefresh. }
  clearbody st'. subst st'.
  set (st' := <["refresh" := r]> (<["access" := a]> st)) in *.
  assert (Htoken : st' !! "access" = Some a).
  { subst st'. rewrite lookup_insert_ne by done. by rewrite lookup_insert_eq. }
  assert (Hstored : st' !! "refresh" = Some r).
  { subst st'. by rewrite lookup_insert_eq. }
  assert (Hcred : truthy (st' !! "refresh") = true).
  { rewrite Hstored; cbn. apply String.eqb_neq in Hr. by rewrite Hr. }
  clearbody st'. split.
  - exists (initial_request st' url options).
    destruct (first_request_issued server' st' url options) as [rest Hsent].
    exists rest. split; [done|]. split; [done|].
    unfold header, initial_request; cbn. unfold auth_headers.
    by rewrite lookup_insert_eq, Htoken.
  - intros res' Hanswer Hstatus. subst sent.
    destruct (call_branch server' st' url options); cbn; try congruence;
      eexists _, _; (split; [reflexivity|]); (split; [reflexivity|]);
      cbn; by rewrite Hstored.
Qed.

Lemma login_stores_both_tokens_witness :
  exists p,
    Login.handleSubmit (scripted [Resolve (issued "a1" "r1")]) accept_json
      "ann" "secret" (open_page ∅)
    = (Done tt, p) /\
    storage (world p) = <["refresh" := "r1"]> (<["access" := "a1"]> ∅) /\
    writes (trace (world p)) = [EvSet "access" "a1"; EvSet "refresh" "r1"] /\
    navigations (trace (world p)) = ["/dashboard"] /\
    requests (trace (world p)) = [Login.login_request accept_json ∅ "ann" "secret"] /\
    updates p = [].
Proof.
  apply (login_stores_both_tokens _ _ _ _ _ (issued "a1" "r1")
           [("refresh", JStr "r1"); ("access", JStr "a1")]);
    reflexivity.
Defined.

Lemma login_rejected_reports_error_witness :
  exists p,
    Login.handleSubmit (scripted [Resolve (refused 401 "detail" "No active account")])
      accept_json "ann" "wrong" (open_page access_only)
    = (Done tt, p) /\
    storage (world p) = access_only /\
    writes (trace (world p)) = [] /\
    navigations (trace (world p)) = [] /\
    updates p = [SetError (JStr "Invalid username or password")].
Proof.
  apply login_rejected_reports_error. right.
  exists (refused 401 "detail" "No active account"). split; reflexivity.
Defined.

Lemma login_request_carries_stored_token_witness :
  header "Authorization" (Login.login_request accept_json access_only "ann" "secret")
  = Some "Bearer old".
Proof.
  destruct (login_request_carries_stored_token (scripted []) accept_json access_only
              "ann" "secret") as (_ & _ & _ & Hstale & _).
  apply (Hstale "old"); [vm_compute; reflexivity | discriminate].
Defined.

Lemma login_without_json_stores_undefined_witness :
  exists p,
    Login.handleSubmit (scripted [Resolve plain_ok]) accept_json "ann" "secret"
      (open_page ∅)
    = (Done tt, p) /\
    storage (world p) = <["refresh" := "undefined"]> (<["access" := "undefined"]> ∅) /\
    navigations (trace (world p)) = ["/dashboard"] /\
    updates p = [] /\
    holds_credential (storage (world p)) "refresh".
Proof.
  apply (login_without_json_stores_undefined _ _ _ _ _ plain_ok); reflexivity.
Defined.

Lemma login_then_fetch_uses_new_tokens_witness :
  let st' :=
    storage (world (Login.handleSubmit (scripted [Resolve (issued "a1" "r1")])
                      accept_json "ann" "secret" (open_page access_only)).2) in
  exists first rest,
    requests (trace (call (scripted [Resolve entry]) st' entries_url no_options).2)
    = first :: rest /\
    req_url first = entries_url /\
    header "Authorization" first = Some "Bearer a1".
Proof.
  apply (login_then_fetch_uses_new_tokens (scripted [Resolve (issued "a1" "r1")])
           accept_json access_only "ann" "secret" (issued "a1" "r1")
           [("refresh", JStr "r1"); ("access", JStr "a1")] "a1" "r1"
           (scripted [Resolve entry]) entries_url no_options);
    try reflexivity.
  discriminate.
Defined.

(** A login whose answer has a refresh member that cannot be made a string:
    the access token is already stored when the conversion throws. *)
Example login_can_store_access_alone :
  let res :=
    {| status := 200;
       json_body := Some (JObj [("access", JStr "a1");
                                ("refresh", JObj [("toString", JNum "1")])]) |} in
  let result :=
    Login.handleSubmit (scripted [Resolve res]) accept_json "ann" "secret" (open_page ∅) in
  storage (world result.2) = {["access" := "a1"]} /\
  updates result.2 = [SetError (JStr "Invalid username or password")].
Proof. vm_compute. auto. Qed.

(** ** The registration page *)

(** The submission with equal passwords, at the answer of the server. *)
Lemma register_submitted server st username password :
  let req := Register.register_request username password in
  let w := {| storage := st; trace := [EvFetch req] |} in
  Register.handleSubmit server username password password (open_page st)
  = (Done tt,
     {| world := w;
        updates :=
          (cleared ++
          match server [req] with
          | Reject => [SetError (JStr "Something went wrong. Please try again.")]
          | Resolve res =>
              if ok res then
                [SetSuccess "Registration successful! Redirecting to login...";
                 SetTimeout 1500 "/"]
              else
                match json_body res with
                | Some (JObj members) =>
                    [SetError (or_else (member "error" members)
                                 (JStr "Registration failed."))]
                | Some JNull | None =>
                    [SetError (JStr "Something went wrong. Please try again.")]
                | Some _ => [SetError (JStr "Registration failed.")]
                end
          end)%list |}).
Proof.
  unfold Register.handleSubmit. rewrite String.eqb_refl. expose_task.
  destruct (server _) as [res|]; [|done].
  destruct (ok res); [done|]. cbn.
  destruct (json_body res) as [[]|]; done.
Qed.

(** The submission with two different passwords. *)
Lemma register_differing_passwords server st username password confirmPassword :
  password <> confirmPassword ->
  Register.handleSubmit server username password confirmPassword (open_page st)
  = (Done tt,
     {| world := start st;
        updates := (cleared ++ [SetError (JStr "Passwords do not match.")])%list |}).
Proof.
  intros Hdiffer. apply String.eqb_neq in Hdiffer.
  unfold Register.handleSubmit. rewrite Hdiffer. reflexivity.
Qed.

(** X10: a submission whose two passwords differ sends no request, whatever
    the server would answer, and writes nothing; it clears the two messages
    and sets the error of the mismatch. *)
Theorem register_mismatch_sends_nothing server st username password confirmPassword :
  password <> confirmPassword ->
  let result :=
    Register.handleSubmit server username password confirmPassword (open_page st) in
  result.1 = Done tt /\
  requests (trace (world result.2)) = [] /\
  storage (world result.2) = st /\
  writes (trace (world result.2)) = [] /\
  updates result.2
  = [SetError (JStr ""); SetSuccess ""; SetError (JStr "Passwords do not match.")].
Proof.
  intros Hdiffer. cbv zeta.
  rewrite register_differing_passwords by done. by cbn.
Qed.

(** X11: whatever the fields and the answer, a submission leaves the
    storage alone, does not navigate while it runs, and sends at most the
    one registration request, a POST of the user name and the password
    without an [Authorization] header, which it sends exactly when the
    passwords are equal.  After clearing both messages it sets either an
    error or the success message with the delayed redirect to ["/"], never
    both. *)
Theorem register_reports_once server st username password confirmPassword :
  let result :=
    Register.handleSubmit server username password confirmPassword (open_page st) in
  let w := world result.2 in
  let req := Register.register_request username password in
  result.1 = Done tt /\
  storage w = st /\ writes (trace w) = [] /\ navigations (trace w) = [] /\
  requests (trace w) = (if decide (password = confirmPassword) then [req] else []) /\
  header "Authorization" req = None /\
  body (req_init req)
  = Some (JsonText (JObj [("username", JStr username); ("password", JStr password)])) /\
  ((exists value, updates result.2 = (cleared ++ [SetError value])%list) \/
   updates result.2
   = (cleared ++ [SetSuccess "Registration successful! Redirecting to login...";
                  SetTimeout 1500 "/"])%list).
Proof.
  cbv zeta. destruct (decide (password = confirmPassword)) as [<-|Hdiffer].
  - rewrite register_submitted; cbn. split_and!; try done.
    destruct (server _) as [res|]; [|by eauto].
    destruct (ok res); [by right|].
    destruct (json_body res) as [[]|]; eauto.
  - rewrite register_differing_passwords by done. cbn.
    split_and!; try done. eauto.
Qed.

(** X12: when the server refuses a registration with a JSON object whose
    [error] member is a non-empty string, that string is the error of the
    form. *)
Theorem register_shows_server_error server st username password res members text :
  server [Register.register_request username password] = Resolve res ->
  ok res = false ->
  json_body res = Some (JObj members) ->
  member "error" members = Some (JStr text) ->
  text <> "" ->
  updates (Register.handleSubmit server username password password (open_page st)).2
  = [SetError (JStr ""); SetSuccess ""; SetError (JStr text)].
Proof.
  intros Hfirst Hok Hjson Herror Htext. apply String.eqb_neq in Htext.
  rewrite register_submitted; cbn. rewrite Hfirst, Hok, Hjson, Herror; cbn.
  by rewrite Htext.
Qed.

(** X13: when the refusal is a JSON object without an [error] member, or
    with one that is null, the error of the form is the fixed text
    [Registration failed.] *)
Theorem register_falls_back_without_error_member server st username password
    res members :
  server [Register.register_request username password] = Resolve res ->
  ok res = false ->
  json_body res = Some (JObj members) ->
  member "error" members = None \/ member "error" members = Some JNull ->
  updates (Register.handleSubmit server username password password (open_page st)).2
  = [SetError (JStr ""); SetSuccess ""; SetError (JStr "Registration failed.")].
Proof.
  intros Hfirst Hok Hjson Herror.
  rewrite register_submitted; cbn. rewrite Hfirst, Hok, Hjson.
  by destruct Herror as [-> | ->].
Qed.

(** X14: when the request gets no response, or a refusal whose body is not
    JSON or is [null], the [catch] clause sets its own text, and the
    failure does not leave the handler. *)
Theorem register_unreadable_answer_goes_wrong server st username password :
  let req := Register.register_request username password in
  (server [req] = Reject \/
   exists res, server [req] = Resolve res /\ ok res = false /\
               (json_body res = None \/ json_body res = Some JNull)) ->
  Register.handleSubmit server username password password (open_page st)
  = (Done tt,
     {| world := {| storage := st; trace := [EvFetch req] |};
        updates := [SetError (JStr ""); SetSuccess "";
                    SetError (JStr "Something went wrong. Please try again.")] |}).
Proof.
  intros req Hfail. rewrite register_submitted; cbn. fold req.
  destruct Hfail as [-> | (res & -> & -> & [-> | ->])]; reflexivity.
Qed.

(** X15: a registration answered 2xx sets the success message and arms the
    redirect to ["/"] after 1500 ms; the handler itself does not navigate
    and stores no token. *)
Theorem register_success_schedules_redirect server st username password res :
  server [Register.register_request username password] = Resolve res ->
  ok res = true ->
  let result := Register.handleSubmit server username password password (open_page st) in
  updates result.2
  = [SetError (JStr ""); SetSuccess "";
     SetSuccess "Registration successful! Redirecting to login...";
     SetTimeout 1500 "/"] /\
  navigations (trace (world result.2)) = [] /\
  storage (world result.2) = st.
Proof.
  intros Hfirst Hok. cbv zeta.
  rewrite register_submitted; cbn. by rewrite Hfirst, Hok.
Qed.

Lemma register_mismatch_sends_nothing_witness :
  requests
    (trace (world (Register.handleSubmit (scripted [Resolve plain_ok]) "ann"
                     "secret" "secrte" (open_page ∅)).2)) = [].
Proof.
  apply (register_mismatch_sends_nothing (scripted [Resolve plain_ok]) ∅ "ann"
           "secret" "secrte").
  discriminate.
Defined.

Lemma register_shows_server_error_witness :
  updates (Register.handleSubmit
             (scripted [Resolve (refused 400 "error" "Username already exists")])
             "ann" "secret" "secret" (open_page ∅)).2
  = [SetError (JStr ""); SetSuccess ""; SetError (JStr "Username already exists")].
Proof.
  apply (register_shows_server_error _ _ _ _
           (refused 400 "error" "Username already exists")
           [("error", JStr "Username already exists")]);
    try reflexivity.
  discriminate.
Defined.

Lemma register_falls_back_without_error_member_witness :
  updates (Register.handleSubmit
             (scripted [Resolve (refused 400 "detail" "Bad request")])
             "ann" "secret" "secret" (open_page ∅)).2
  = [SetError (JStr ""); SetSuccess ""; SetError (JStr "Registration failed.")].
Proof.
  apply (register_falls_back_without_error_member _ _ _ _
           (refused 400 "detail" "Bad request") [("detail", JStr "Bad request")]);
    try reflexivity.
  left. reflexivity.
Defined.

Lemma register_unreadable_answer_goes_wrong_witness :
  Register.handleSubmit (scripted [Reject]) "ann" "secret" "secret" (open_page ∅)
  = (Done tt,
     {| world := {| storage := ∅;
                    trace := [EvFetch (Register.register_request "ann" "secret")] |};
        updates := [SetError (JStr ""); SetSuccess "";
                    SetError (JStr "Something went wrong. Please try again.")] |}).
Proof.
  apply register_unreadable_answer_goes_wrong. left. reflexivity.
Defined.

Lemma register_success_schedules_redirect_witness :
  let result :=
    Register.handleSubmit (scripted [Resolve plain_ok]) "ann" "secret" "secret"
      (open_page ∅) in
  updates result.2
  = [SetError (JStr ""); SetSuccess "";
     SetSuccess "Registration successful! Redirecting to login...";
     SetTimeout 1500 "/"] /\
  navigations (trace (world result.2)) = [] /\
  storage (world result.2) = ∅.
Proof.
  apply (register_success_schedules_redirect _ _ _ _ plain_ok); reflexivity.
Defined.

(** ** The pages that call [fetchWithAuth] *)

(** The refresh path of a call, as an equation. *)
Lemma call_refreshed server st url options res refreshRes members new res2 :
  let r0 := initial_request st url options in
  let rr := refresh_request st in
  let r2 := retry_request url options new in
  server [r0] = Resolve res ->
  status res = 401 ->
  holds_credential st "refresh" ->
  server [r0; rr] = Resolve refreshRes ->
  ok refreshRes = true ->
  json_body refreshRes = Some (JObj members) ->
  member "access" members = Some (JStr new) ->
  server [r0; rr; r2] = Resolve res2 ->
  call server st url options
  = (Returned res2,
     {| storage := <["access" := new]> st;
        trace := [EvFetch r0; EvFetch rr; EvSet "access" new; EvFetch r2] |}).
Proof.
  intros r0 rr r2 Hfirst Hstatus Hcred Hrefresh Hok Hjson Hmember Hretry.
  apply status_401 in Hstatus. unfold holds_credential in Hcred.
  expose_call. answer Hfirst. rewrite Hstatus; cbn. rewrite Hcred; cbn.
  answer Hrefresh. rewrite Hok; cbn. rewrite Hjson; cbn. rewrite Hmember; cbn.
  answer Hretry. reflexivity.
Qed.

(** The path of a 401 without a refresh credential, as an equation. *)
Lemma call_without_credential server st url options res :
  let r0 := initial_request st url options in
  server [r0] = Resolve res ->
  status res = 401 ->
  ~ holds_credential st "refresh" ->
  call server st url options
  = (Returned res, {| storage := st; trace := [EvFetch r0; EvNavigate "/"] |}).
Proof.
  intros r0 Hfirst Hstatus Hcred. apply status_401 in Hstatus.
  unfold holds_credential in Hcred. apply not_true_is_false in Hcred.
  expose_call. answer Hfirst. rewrite Hstatus; cbn. rewrite Hcred. reflexivity.
Qed.

(** [fetchSummaries] in terms of the call it awaits. *)
Lemma fetchSummaries_run server native_message st :
  let result := call server st SummariesPage.SUMMARIES_URL no_options in
  SummariesPage.fetchSummaries server native_message (open_page st)
  = (Done tt,
     {| world := result.2;
        updates :=
          match result.1 with
          | Thrown e => [SetError (JStr (native_message e))]
          | Returned res =>
              if ok res then
                match json_body res with
                | Some data => [SetSummaries data]
                | None => [SetError (JStr (native_message SyntaxError))]
                end
              else [SetError (JStr "Failed to fetch summaries")]
          end |}).
Proof.
  cbv zeta. unfold SummariesPage.fetchSummaries.
  unfold try_catch, mbind, Task_bind, await, open_page.
  change (fetchWithAuth server SummariesPage.SUMMARIES_URL no_options
            (world {| world := start st; updates := [] |}))
    with (call server st SummariesPage.SUMMARIES_URL no_options).
  destruct (call server st _ _) as [[res|e] w]; cbn; [|done].
  destruct (ok res); cbn; [|done].
  unfold json. by destruct (json_body res).
Qed.

(** X16: [fetchSummaries] adds nothing to the effects of the call it awaits
    and never lets a failure out: it makes exactly one update.  The update
    sets the summaries, to the parsed body, exactly when the call returned a
    2xx response with a JSON body; a response outside 2xx gives the error
    [Failed to fetch summaries], and a rejection the text of its error. *)
Theorem fetchSummaries_sets_summaries_or_error server native_message st :
  let call_result := call server st SummariesPage.SUMMARIES_URL no_options in
  let result := SummariesPage.fetchSummaries server native_message (open_page st) in
  result.1 = Done tt /\
  world result.2 = call_result.2 /\
  (exists u, updates result.2 = [u]) /\
  (forall data,
      updates result.2 = [SetSummaries data] <->
      exists res, call_result.1 = Returned res /\ ok res = true /\
                  json_body res = Some data) /\
  (forall res, call_result.1 = Returned res -> ok res = false ->
               updates result.2 = [SetError (JStr "Failed to fetch summaries")]) /\
  (forall e, call_result.1 = Thrown e ->
             updates result.2 = [SetError (JStr (native_message e))]).
Proof.
  cbv zeta. rewrite fetchSummaries_run. cbv zeta.
  destruct (call server st SummariesPage.SUMMARIES_URL no_options) as [[res|e] w]; cbn.
  - split_and!; try done.
    + destruct (ok res); [destruct (json_body res)|]; eauto.
    + intros data. split.
      * destruct (ok res) eqn:Hok; [destruct (json_body res) eqn:Hjson|];
          intros [= <-]; eauto.
      * intros (res' & [= <-] & -> & ->). done.
    + by intros ? [= <-] ->.
  - split_and!; try done; [eauto| |by intros ? [= <-]].
    intros data. split; [done | by intros (? & ? & _)].
Qed.

(** X17: an expired access token is invisible to the summaries page: when
    the first answer is a 401, the refresh gives [new] and the retry gives a
    2xx with the JSON body [data], the page sets the summaries to [data],
    reports no error, is not redirected, and the storage holds [new]. *)
Theorem fetchSummaries_survives_expired_token server native_message st
    res refreshRes members new res2 data :
  let r0 := initial_request st SummariesPage.SUMMARIES_URL no_options in
  let rr := refresh_request st in
  let r2 := retry_request SummariesPage.SUMMARIES_URL no_options new in
  server [r0] = Resolve res ->
  status res = 401 ->
  holds_credential st "refresh" ->
  server [r0; rr] = Resolve refreshRes ->
  ok refreshRes = true ->
  json_body refreshRes = Some (JObj members) ->
  member "access" members = Some (JStr new) ->
  server [r0; rr; r2] = Resolve res2 ->
  ok res2 = true ->
  json_body res2 = Some data ->
  let result := SummariesPage.fetchSummaries server native_message (open_page st) in
  updates result.2 = [SetSummaries data] /\
  navigations (trace (world result.2)) = [] /\
  storage (world result.2) !! "access" = Some new.
Proof.
  intros r0 rr r2 Hfirst Hstatus Hcred Hrefresh Hok Hjson Hmember Hretry Hok2 Hdata.
  cbv zeta. rewrite fetchSummaries_run. cbv zeta.
  rewrite (call_refreshed _ _ _ _ _ _ _ _ _ Hfirst Hstatus Hcred Hrefresh Hok Hjson
             Hmember Hretry).
  cbn. rewrite Hok2, Hdata. split_and!; try done. by rewrite lookup_insert_eq.
Qed.

(** X18: when the first answer is a 401 and the storage holds no refresh
    credential, the summaries page both is redirected to ["/"] and sets the
    error [Failed to fetch summaries]; the summaries are not set. *)
Theorem fetchSummaries_redirects_and_reports server native_message st res :
  server [initial_request st SummariesPage.SUMMARIES_URL no_options] = Resolve res ->
  status res = 401 ->
  ~ holds_credential st "refresh" ->
  let result := SummariesPage.fetchSummaries server native_message (open_page st) in
  updates result.2 = [SetError (JStr "Failed to fetch summaries")] /\
  navigations (trace (world result.2)) = ["/"] /\
  storage (world result.2) = st.
Proof.
  intros Hfirst Hstatus Hcred. cbv zeta. rewrite fetchSummaries_run. cbv zeta.
  rewrite (call_without_credential _ _ _ _ _ Hfirst Hstatus Hcred). cbn.
  unfold ok. rewrite Hstatus. done.
Qed.

Lemma fetchSummaries_sets_summaries_or_error_witness :
  updates (SummariesPage.fetchSummaries (scripted [Resolve entry]) chrome_message
             (open_page logged_in)).2
  = [SetSummaries (JObj [("id", JNum "1")])].
Proof.
  destruct (fetchSummaries_sets_summaries_or_error (scripted [Resolve entry])
              chrome_message logged_in) as (_ & _ & _ & Hset & _).
  apply Hset. exists entry. split_and!; reflexivity.
Defined.

Lemma fetchSummaries_survives_expired_token_witness :
  let result :=
    SummariesPage.fetchSummaries (api_server "r1" "new") chrome_message
      (open_page logged_in) in
  updates result.2 = [SetSummaries (JObj [("id", JNum "1")])] /\
  navigations (trace (world result.2)) = [] /\
  storage (world result.2) !! "access" = Some "new".
Proof.
  apply (fetchSummaries_survives_expired_token (api_server "r1" "new") chrome_message
           logged_in unauthorized (refreshed "new") [("access", JStr "new")] "new"
           entry (JObj [("id", JNum "1")]));
    try (vm_compute; reflexivity).
Defined.

Lemma fetchSummaries_redirects_and_reports_witness :
  let result :=
    SummariesPage.fetchSummaries (scripted [Resolve unauthorized]) chrome_message
      (open_page access_only) in
  updates result.2 = [SetError (JStr "Failed to fetch summaries")] /\
  navigations (trace (world result.2)) = ["/"] /\
  storage (world result.2) = access_only.
Proof.
  apply (fetchSummaries_redirects_and_reports _ _ _ unauthorized);
    [reflexivity | reflexivity |].
  unfold holds_credential. vm_compute. discriminate.
Defined.

(** ** Logging food on the dashboard *)


(** [handleLogFood] in terms of the call it awaits. *)
Lemma handleLogFood_run server native_message st foodName :
  let result :=
    call server st Dashboard.LOG_FOOD_URL (Dashboard.log_food_options foodName) in
  let failed text :=
    (Done tt, {| world := result.2; updates := [SetError (JStr text)] |}) in
  Dashboard.handleLogFood server native_message foodName (open_page st)
  = match result.1 with
    | Thrown e => failed (native_message e)
    | Returned res =>
        if ok res then
          (Done tt,
           {| world :=
                {| storage := storage result.2;
                   trace := trace result.2
                            ++ (EvFetch <$> Dashboard.refetch (storage result.2)) |};
              updates := [SetFoodName ""; SetError (JStr "")] |})
        else
          match json_body res with
          | None => failed (native_message SyntaxError)
          | Some errData =>
              match get_property errData "detail" with
              | Thrown e => failed (native_message e)
              | Returned detail =>
                  match String_of (Some (or_else detail (JStr "Failed to log food"))) with
                  | Returned text => failed text
                  | Thrown e => failed (native_message e)
                  end
              end
          end
    end.
Proof.
  cbv zeta. unfold Dashboard.handleLogFood.
  unfold try_catch, mbind, Task_bind, await, open_page.
  change (fetchWithAuth server Dashboard.LOG_FOOD_URL (Dashboard.log_food_options foodName)
            (world {| world := start st; updates := [] |}))
    with (call server st Dashboard.LOG_FOOD_URL (Dashboard.log_food_options foodName)).
  destruct (call server st _ _) as [[res|e] w]; cbn; [|done].
  destruct (ok res); cbn.
  - unfold emit; cbn. by rewrite <- app_assoc.
  - unfold json. destruct (json_body res) as [errData|]; cbn; [|done].
    unfold lift. destruct (get_property errData "detail") as [detail|]; cbn; [|done].
    unfold String_of. by destruct (to_string _).
Qed.

(** X19: [handleLogFood] lets no failure out.  Exactly when the call it
    awaits returned a 2xx response it clears the input, clears the error and
    starts [fetchData]: to the effects of the call it adds the two requests
    for today's entries and today's summary, in that order, with the bearer
    of the access token then in the storage.  In every other case it adds
    nothing to the effects of the call and its one update sets the error:
    the input keeps its text and nothing is fetched again. *)
Theorem handleLogFood_clears_input_only_on_success server native_message st foodName :
  let call_result :=
    call server st Dashboard.LOG_FOOD_URL (Dashboard.log_food_options foodName) in
  let result := Dashboard.handleLogFood server native_message foodName (open_page st) in
  let st' := storage call_result.2 in
  result.1 = Done tt /\
  storage (world result.2) = st' /\
  ((exists res, call_result.1 = Returned res /\ ok res = true) /\
   updates result.2 = [SetFoodName ""; SetError (JStr "")] /\
   trace (world result.2)
   = (trace call_result.2
      ++ [EvFetch (initial_request st' Dashboard.ENTRIES_TODAY_URL no_options);
          EvFetch (initial_request st' Dashboard.TODAY_SUMMARY_URL no_options)])%list /\
   header "Authorization" (initial_request st' Dashboard.ENTRIES_TODAY_URL no_options)
   = Some ("Bearer " +:+ template_nullable (st' !! "access"))
   \/
   ~ (exists res, call_result.1 = Returned res /\ ok res = true) /\
   (exists value, updates result.2 = [SetError value]) /\
   world result.2 = call_result.2).
Proof.
  cbv zeta. rewrite handleLogFood_run. cbv zeta.
  destruct (call server st Dashboard.LOG_FOOD_URL _) as [[res|e] w]; cbn.
  - destruct (ok res) eqn:Hok; cbn.
    + split_and!; try done. left. split_and!; [by eauto | done | done |].
      unfold header, initial_request; cbn. unfold auth_headers.
      by rewrite lookup_insert_eq.
    + assert (Hnot : ~ (exists res0, Returned res = Returned res0 /\ ok res0 = true)).
      { intros (? & [= <-] & ?). congruence. }
      destruct (json_body res) as [errData|]; [|by split_and!; eauto 6].
      destruct (get_property errData "detail"); [|by split_and!; eauto 6].
      unfold String_of. destruct (to_string _); split_and!; eauto 6.
  - split_and!; try done. right. split_and!; eauto. by intros (? & ? & _).
Qed.


(** X21: when the call returns a response outside 2xx whose body is a JSON
    object with a non-empty string under [detail], that string is the error
    the dashboard shows. *)
Theorem handleLogFood_shows_detail server native_message st foodName res members text :
  (call server st Dashboard.LOG_FOOD_URL (Dashboard.log_food_options foodName)).1
  = Returned res ->
  ok res = false ->
  json_body res = Some (JObj members) ->
  member "detail" members = Some (JStr text) ->
  text <> "" ->
  updates (Dashboard.handleLogFood server native_message foodName (open_page st)).2
  = [SetError (JStr text)].
Proof.
  intros Hcall Hok Hjson Hdetail Htext. apply String.eqb_neq in Htext.
  rewrite handleLogFood_run. cbv zeta. cbn [updates snd].
  rewrite Hcall, Hok, Hjson. cbn. rewrite Hdetail. cbn. by rewrite Htext.
Qed.

(** X22: when the body of the refusal is a JSON object without [detail], or
    with a null or empty one, the error is the fixed text
    [Failed to log food]. *)
Theorem handleLogFood_falls_back_without_detail server native_message st foodName
    res members :
  (call server st Dashboard.LOG_FOOD_URL (Dashboard.log_food_options foodName)).1
  = Returned res ->
  ok res = false ->
  json_body res = Some (JObj members) ->
  (member "detail" members = None \/ member "detail" members = Some JNull \/
   member "detail" members = Some (JStr "")) ->
  updates (Dashboard.handleLogFood server native_message foodName (open_page st)).2
  = [SetError (JStr "Failed to log food")].
Proof.
  intros Hcall Hok Hjson Hdetail.
  rewrite handleLogFood_run. cbv zeta. cbn [updates snd].
  rewrite Hcall, Hok, Hjson. cbn.
  by destruct Hdetail as [-> | [-> | ->]].
Qed.

(** X23: when the body of the refusal is not JSON, the error shown is the
    text of the parse error of the platform, not [Failed to log food]; when
    the call itself rejects, it is the text of that rejection. *)
Theorem handleLogFood_shows_platform_text server native_message st foodName :
  let call_result :=
    call server st Dashboard.LOG_FOOD_URL (Dashboard.log_food_options foodName) in
  let shown :=
    updates (Dashboard.handleLogFood server native_message foodName (open_page st)).2 in
  (forall res, call_result.1 = Returned res -> ok res = false ->
               json_body res = None ->
               shown = [SetError (JStr (native_message SyntaxError))]) /\
  (forall e, call_result.1 = Thrown e ->
             shown = [SetError (JStr (native_message e))]).
Proof.
  cbv zeta. rewrite handleLogFood_run. cbv zeta. cbn [updates snd]. split.
  - by intros res -> -> ->.
  - by intros e ->.
Qed.

Lemma handleLogFood_clears_input_only_on_success_witness :
  exists value,
    updates (Dashboard.handleLogFood (scripted [Reject]) chrome_message "2 eggs"
               (open_page logged_in)).2 = [SetError value].
Proof.
  destruct (handleLogFood_clears_input_only_on_success (scripted [Reject])
              chrome_message logged_in "2 eggs")
    as (_ & _ & [((res & Hres & _) & _) | (_ & Herror & _)]).
  - vm_compute in Hres. discriminate Hres.
  - exact Herror.
Defined.


Lemma handleLogFood_shows_detail_witness :
  updates (Dashboard.handleLogFood
             (scripted [Resolve (refused 400 "detail" "Could not parse food")])
             chrome_message "xyzzy" (open_page logged_in)).2
  = [SetError (JStr "Could not parse food")].
Proof.
  apply (handleLogFood_shows_detail _ _ _ _ (refused 400 "detail" "Could not parse food")
           [("detail", JStr "Could not parse food")]);
    try reflexivity.
  discriminate.
Defined.

Lemma handleLogFood_falls_back_without_detail_witness :
  updates (Dashboard.handleLogFood
             (scripted [Resolve (refused 500 "error" "boom")])
             chrome_message "2 eggs" (open_page logged_in)).2
  = [SetError (JStr "Failed to log food")].
Proof.
  apply (handleLogFood_falls_back_without_detail _ _ _ _ (refused 500 "error" "boom")
           [("error", JStr "boom")]);
    try reflexivity.
  left. reflexivity.
Defined.

Lemma handleLogFood_shows_platform_text_witness :
  updates (Dashboard.handleLogFood
             (scripted [Resolve {| status := 502; json_body := None |}])
             chrome_message "2 eggs" (open_page logged_in)).2
  = [SetError (JStr "Unexpected end of JSON input")].
Proof.
  destruct (handleLogFood_shows_platform_text
              (scripted [Resolve {| status := 502; json_body := None |}])
              chrome_message logged_in "2 eggs") as (Hparse & _).
  apply (Hparse {| status := 502; json_body := None |}); reflexivity.
Defined.

(** ** What the dashboard draws *)

(** X24: [chartData], the value computed for the pie before the markup
    of the card, is null exactly when the summary is falsy, as it is before
    the first answer.  For a summary that is an object its dataset has
    three points, for carbs, protein and fat in that order, and each point
    is the summary's own value of that macro when the value is truthy, and
    the number 0 when the macro is missing or falsy.  A truthy summary that
    is no object gives three zeros. *)
Theorem chartData_points_default_to_zero (todaySummary : JsValue) :
  let keys := ["total_carbs_g"; "total_protein_g"; "total_fat_g"] in
  (Dashboard.chartData todaySummary = JNull <-> truthy_value (Some todaySummary) = false) /\
  (forall members,
      todaySummary = JObj members ->
      exists points,
        Dashboard.chart_points (Dashboard.chartData todaySummary) = Some points /\
        length points = 3 /\
        forall i key, keys !! i = Some key ->
          (forall value, member key members = Some value ->
                         truthy_value (Some value) = true ->
                         points !! i = Some value) /\
          (truthy_value (member key members) = false ->
           points !! i = Some (JNum "0"))) /\
  (truthy_value (Some todaySummary) = true ->
   (forall members, todaySummary <> JObj members) ->
   Dashboard.chart_points (Dashboard.chartData todaySummary)
   = Some [JNum "0"; JNum "0"; JNum "0"]).
Proof.
  cbv zeta. unfold Dashboard.chartData. split_and!.
  - destruct (truthy_value (Some todaySummary)); split; done.
  - intros members ->. eexists. split; [reflexivity|]. split; [reflexivity|].
    intros i key Hkey.
    assert (Hpoint :
              [Dashboard.or_zero (JObj members) "total_carbs_g";
               Dashboard.or_zero (JObj members) "total_protein_g";
               Dashboard.or_zero (JObj members) "total_fat_g"] !! i
              = Some (or_else (member key members) (JNum "0"))).
    { destruct i as [|[|[|i]]]; cbn in Hkey; by simplify_eq. }
    rewrite Hpoint. unfold or_else. split.
    + intros value -> ->. done.
    + intros Hfalsy. destruct (member key members); by rewrite ?Hfalsy.
  - intros -> Hshape. destruct todaySummary; try done.
    by destruct (Hshape members).
Qed.

Lemma chartData_points_default_to_zero_witness :
  exists points,
    Dashboard.chart_points (Dashboard.chartData lean_day) = Some points /\
    points !! 1 = Some (JNum "30.2") /\
    points !! 2 = Some (JNum "0").
Proof.
  destruct (chartData_points_default_to_zero lean_day) as (_ & Hobject & _).
  destruct (Hobject _ eq_refl) as (points & Hpoints & _ & Hpoint).
  exists points. split; [exact Hpoints|]. split.
  - apply (Hpoint 1 "total_protein_g" eq_refl); reflexivity.
  - apply (Hpoint 2 "total_fat_g" eq_refl). reflexivity.
Defined.

(** X25: the dashboard lists the first entries, four at most and in their
    order, and offers the link to all entries exactly when the list leaves
    some out. *)
Theorem latestEntries_hides_iff_see_more (foodItems : list JsValue) :
  length (Dashboard.latestEntries foodItems) = min 4 (length foodItems) /\
  Dashboard.latestEntries foodItems `prefix_of` foodItems /\
  (Dashboard.see_more foodItems = true <->
   Dashboard.latestEntries foodItems <> foodItems).
Proof.
  unfold Dashboard.latestEntries, Dashboard.see_more. split_and!.
  - apply length_take.
  - apply prefix_take.
  - rewrite Nat.ltb_lt. split.
    + intros Hmore Hsame. apply (f_equal length) in Hsame.
      rewrite length_take in Hsame. lia.
    + intros Hhidden. destruct (decide (4 < length foodItems)) as [|Hfew]; [done|].
      exfalso. apply Hhidden. apply take_ge. lia.
Qed.

Lemma latestEntries_hides_iff_see_more_witness :
  Dashboard.latestEntries [JNum "1"; JNum "2"; JNum "3"; JNum "4"; JNum "5"]
  <> [JNum "1"; JNum "2"; JNum "3"; JNum "4"; JNum "5"].
Proof.
  apply (latestEntries_hides_iff_see_more
           [JNum "1"; JNum "2"; JNum "3"; JNum "4"; JNum "5"]).
  reflexivity.
Defined.

(** ** What a call hands back *)

(** X26: a response returned by [fetchWithAuth] is always an answer to the
    caller's own request, the first one or the retry, and never the answer
    of the refresh endpoint; when it is the answer to the retry, the access
    token of that retry is the one now in the storage. *)
Theorem returned_response_answers_callers_request server st url options res :
  let result := call server st url options in
  let r0 := initial_request st url options in
  let rr := refresh_request st in
  result.1 = Returned res ->
  server [r0] = Resolve res /\ storage result.2 = st
  \/
  exists access,
    server [r0; rr; retry_request url options access] = Resolve res /\
    requests (trace result.2) = [r0; rr; retry_request url options access] /\
    storage result.2 !! "access" = Some access.
Proof.
  cbv zeta. destruct (call_branch server st url options); cbn;
    intros Hreturned; try discriminate;
    try (injection Hreturned as <-; left; by split_and!).
  right. exists token. subst r2.
  destruct (server [_; _; _]) eqn:Hretry; [|congruence].
  split_and!; [congruence | done | by rewrite lookup_insert_eq].
Qed.

Lemma returned_response_answers_callers_request_witness :
  let server := api_server "r1" "new" in
  let result := call server logged_in entries_url no_options in
  let r0 := initial_request logged_in entries_url no_options in
  let rr := refresh_request logged_in in
  server [r0] = Resolve entry /\ storage result.2 = logged_in
  \/
  exists access,
    server [r0; rr; retry_request entries_url no_options access] = Resolve entry /\
    requests (trace result.2) = [r0; rr; retry_request entries_url no_options access] /\
    storage result.2 !! "access" = Some access.
Proof.
  apply (returned_response_answers_callers_request (api_server "r1" "new")
           logged_in entries_url no_options entry).
  vm_compute. reflexivity.
Defined.
